(** * A shallow embedding of the record repository of Note_keeper

    Sources: [src/core.py] (the [_Template] record and its [__eq__]),
    [src/storage.py] (class [Repo]) and [src/notekeeper.py] (class
    [NoteKeeper], the create/edit entry points).

    Python objects are mutated in place and an exception leaves the
    mutations made before it.  The repository is therefore threaded through
    a state-and-exception monad [M] whose failures still return the state
    reached when the exception was raised. *)

From Stdlib Require Import ZArith List String Ascii Bool Lia Permutation.
Import ListNotations.
Open Scope Z_scope.
Open Scope list_scope.

(** ** Exceptions *)

(** The messages of the [StorageError]s raised by [storage.py], one tag per
    raise site. *)
Inductive storage_msg :=
| SE_Length        (* _add_id: wrong number of digits *)
| SE_InUse         (* _add_id: id already used *)
| SE_NotInt        (* _add_id: id is not an int *)
| SE_Format        (* _save_to_yaml: path is not .yaml / .yml *)
| SE_BadId         (* delete_note / get_note: id is not numeric *)
| SE_NotFound      (* delete_note / get_note: no note with that id *)
| SE_BadType       (* edit_type / get_notes_of_type: unknown type *)
| SE_BadNote       (* edit_type: not a _Template *)
| SE_Instantiate.  (* _instantiate_templates: KeyError/ValueError re-raised *)

(** The PyYAML exceptions [yaml.full_load] raises on a stream that is not
    valid YAML; they are distinct classes (none derives from another). *)
Inductive yaml_error := ParserError | ScannerError | ComposerError.

Inductive err :=
| StorageError (m : storage_msg)
| CoreError
| NoteKeeperApplicationError
| KeyError
| ValueError
| TypeError
| IndexError
| YAMLError (e : yaml_error)
| NoReturn.  (* the call has not returned within the random draws supplied *)

Inductive except (A : Type) :=
| Ok (a : A)
| Err (e : err).
Arguments Ok {A} a.
Arguments Err {A} e.

(** ** Data model *)

(** A [_Template] instance: its [__dict__] is [{'id': ..., 'note': ...}];
    its class is the name of the [templates] list it is stored in. *)
Record note := mk_note { id : Z; body : string }.

(** The dictionaries [to_dict] produces and the data file holds:
    [{'_type': ..., 'id': ..., 'note': ...}]. *)
Record template := mk_template { t_type : string; t_id : Z; t_note : string }.

(** [Repo.subclass_names]: [_Template.__subclasses__()] in the order the
    classes are defined in [core.py]. *)
Definition subclass_names : list string :=
  ["LimitedExam"; "Surgery"; "HygieneExam"; "PeriodicExam"; "ComprehensiveExam"]%string.

Definition ID_DIGIT_LENGTH : Z := 10.

(** [Repo.templates] (a dict: class name -> list of notes, in insertion
    order) and [Repo.ids] (a list). *)
Record repo := mk_repo {
  templates : list (string * list note);
  ids : list Z
}.

(** [Repo.__init__]: [copy.deepcopy(self.classes)] and [[]]. *)
Definition repo_init : repo :=
  mk_repo (map (fun n => (n, [])) subclass_names) [].

(** ** The state-and-exception monad *)

Definition M (A : Type) := repo -> except A * repo.

Definition ret {A} (a : A) : M A := fun s => (Ok a, s).
Definition raise {A} (e : err) : M A := fun s => (Err e, s).
Definition bind {A B} (m : M A) (k : A -> M B) : M B :=
  fun s => match m s with
           | (Ok a, s') => k a s'
           | (Err e, s') => (Err e, s')
           end.
Definition get : M repo := fun s => (Ok s, s).
Definition put (s : repo) : M unit := fun _ => (Ok tt, s).

Notation "x <- m ;; k" := (bind m (fun x => k))
  (at level 61, m at next level, right associativity).
Notation "m ;;; k" := (bind m (fun _ => k))
  (at level 61, right associativity).

(** ** Python helpers *)

(** Dict lookup [d[k]] on an association list; [KeyError] if absent. *)
Fixpoint lookup {A} (k : string) (d : list (string * A)) : option A :=
  match d with
  | [] => None
  | (k', v) :: d' => if String.eqb k k' then Some v else lookup k d'
  end.

(** Dict item assignment [d[k] = v] on an existing key. *)
Fixpoint assign {A} (k : string) (v : A) (d : list (string * A)) : list (string * A) :=
  match d with
  | [] => []
  | (k', v') :: d' => if String.eqb k k' then (k', v) :: d' else (k', v') :: assign k v d'
  end.

(** [len(str(z))] for a Python int: the decimal digits of [|z|], plus one
    for the sign of a negative number.  [fuel] only bounds the recursion;
    [log2 |z| + 1] divisions by ten always reach a single digit. *)
Fixpoint digits_aux (fuel : nat) (n : Z) : Z :=
  match fuel with
  | O => 1
  | S f => if n <? 10 then 1 else 1 + digits_aux f (n / 10)
  end.

Definition str_len (z : Z) : Z :=
  (if z <? 0 then 1 else 0)
  + digits_aux (S (Z.to_nat (Z.log2 (Z.abs z)))) (Z.abs z).

(** [lst[i] = x] and [lst.pop(i)] on an index in range. *)
Fixpoint update_nth {A} (i : nat) (x : A) (l : list A) : list A :=
  match l, i with
  | [], _ => []
  | _ :: l', O => x :: l'
  | y :: l', S i' => y :: update_nth i' x l'
  end.

Fixpoint pop_nth {A} (i : nat) (l : list A) : list A :=
  match l, i with
  | [], _ => []
  | _ :: l', O => l'
  | y :: l', S i' => y :: pop_nth i' l'
  end.

(** [lst.remove(x)] on a list of ints: drops the first occurrence, raises
    [ValueError] when there is none. *)
Fixpoint list_remove (x : Z) (l : list Z) : option (list Z) :=
  match l with
  | [] => None
  | y :: l' => if Z.eqb x y then Some l'
               else option_map (cons y) (list_remove x l')
  end.

(** [str.isnumeric()] and [int(s)] on ASCII text (Python's [isnumeric] also
    accepts other Unicode numerals, which this model does not represent). *)
Definition is_digit (c : ascii) : bool :=
  let n := nat_of_ascii c in (48 <=? n)%nat && (n <=? 57)%nat.

Fixpoint all_digits (s : string) : bool :=
  match s with
  | EmptyString => true
  | String c s' => is_digit c && all_digits s'
  end.

Definition isnumeric (s : string) : bool :=
  match s with
  | EmptyString => false
  | _ => all_digits s
  end.

Fixpoint parse_int_aux (acc : Z) (s : string) : Z :=
  match s with
  | EmptyString => acc
  | String c s' => parse_int_aux (10 * acc + Z.of_nat (nat_of_ascii c - 48)) s'
  end.

Definition parse_int (s : string) : Z := parse_int_aux 0 s.

(** [str.split(".")]. *)
Fixpoint split_dot_aux (cur : string) (s : string) : list string :=
  match s with
  | EmptyString => [cur]
  | String c s' =>
      if Ascii.eqb c "."%char then cur :: split_dot_aux EmptyString s'
      else split_dot_aux (cur ++ String c EmptyString)%string s'
  end.

Definition split_dot (s : string) : list string := split_dot_aux EmptyString s.

(** ** Storage: [Repo] (src/storage.py) *)

(** [Repo._add_id] *)
Definition _add_id (id_ : Z) : M unit :=
  s <- get ;;
  if negb (str_len id_ =? ID_DIGIT_LENGTH) then raise (StorageError SE_Length)
  else if existsb (Z.eqb id_) (ids s) then raise (StorageError SE_InUse)
  (* [type(id_) is not int] never holds: ids are Python ints here *)
  else put (mk_repo (templates s) (ids s ++ [id_])).

(** A reference to a stored note object: its class name and its position in
    [templates[name]]. *)
Definition ref := (string * nat)%type.

(** [Repo._instantiate_templates]: look up the class ([KeyError] if unknown),
    register the id, append the note. *)
Definition _instantiate_templates (t : template) : M ref :=
  if negb (existsb (String.eqb (t_type t)) subclass_names) then raise KeyError
  else
    let n := mk_note (t_id t) (t_note t) in
    _add_id (t_id t) ;;;
    s <- get ;;
    match lookup (t_type t) (templates s) with
    | None => raise (StorageError SE_Instantiate)
    | Some l =>
        put (mk_repo (assign (t_type t) (l ++ [n]) (templates s)) (ids s)) ;;;
        ret (t_type t, List.length l)
    end.

(** The PyYAML side: the data file and [yaml.full_load].  A file is empty,
    holds what [yaml.dump] wrote for a list of dicts, or is not valid YAML,
    in which case [full_load] raises the exception the text provokes
    ([ParserError], or [ScannerError] for a text such as ['a: b: c'], ...);
    [full_load] returns [None] on an empty stream. *)
Inductive contents := CEmpty | CDump (l : list template) | CInvalid (e : yaml_error).

Inductive yaml_doc := YNone | YSeq (l : list template).

Definition full_load (c : contents) : yaml_doc + yaml_error :=
  match c with
  | CEmpty => inl YNone
  | CDump l => inl (YSeq l)
  | CInvalid e => inr e
  end.

Definition fs := list (string * contents).

(** [Path(file_path).touch(exist_ok=True)]. *)
Definition touch (f : fs) (p : string) : fs :=
  match lookup p f with
  | Some _ => f
  | None => f ++ [(p, CEmpty)]
  end.

(** [open(file_path, "w")] followed by [yaml.dump(records, ...)]. *)
Definition write_file (f : fs) (p : string) (c : contents) : fs :=
  match lookup p f with
  | Some _ => assign p c f
  | None => f ++ [(p, c)]
  end.

(** [Repo._get_from_yaml]: touch, then [full_load]; only [ParserError] is
    caught, leaving [records = []]; any other exception propagates. *)
Definition _get_from_yaml (f : fs) (p : string) : fs * except yaml_doc :=
  let f' := touch f p in
  let c := match lookup p f' with Some c => c | None => CEmpty end in
  match full_load c with
  | inl d => (f', Ok d)
  | inr ParserError => (f', Ok (YSeq []))
  | inr e => (f', Err (YAMLError e))
  end.

(** [Repo._load_obj]: [for template in templates] - iterating over [None]
    raises [TypeError]. *)
Fixpoint load_list (ts : list template) : M unit :=
  match ts with
  | [] => ret tt
  | t :: ts' => _instantiate_templates t ;;; load_list ts'
  end.

Definition _load_obj (d : yaml_doc) : M unit :=
  match d with
  | YNone => raise TypeError
  | YSeq ts => load_list ts
  end.

(** [Repo.load] *)
Definition load (f : fs) (p : string) : M fs :=
  let '(f', r) := _get_from_yaml f p in
  match r with
  | Ok d => _load_obj d ;;; ret f'
  | Err e => raise e
  end.

Definition DEFAULT_RECORDS_FILENAME : string := "records.yaml".

(** [_Template.to_dict] of a note stored in [templates[name]]. *)
Definition to_dict (name : string) (n : note) : template :=
  mk_template name (id n) (body n).

(** The [records] list [Repo.save] builds. *)
Definition records_of (tpl : list (string * list note)) : list template :=
  flat_map (fun '(name, l) => map (to_dict name) l) tpl.

(** [Repo._save_to_yaml]: the check reads [file_path.split(".")[1]]. *)
Definition _save_to_yaml (f : fs) (records : list template) (p : string)
  : except fs :=
  match nth_error (split_dot p) 1 with
  | None => Err IndexError
  | Some ext =>
      if negb (String.eqb ext "yaml") && negb (String.eqb ext "yml")
      then Err (StorageError SE_Format)
      else Ok (write_file f p (CDump records))
  end.

(** [Repo.save] *)
Definition save (f : fs) (p : string) : M (fs * bool) :=
  s <- get ;;
  match _save_to_yaml f (records_of (templates s)) p with
  | Err e => raise e
  | Ok f' => ret (f', true)
  end.

(** An id argument as [delete_note] and [get_note] receive it: an int, a
    str, or any other Python value that compares unequal to every int
    ([None], a list, a non-integral float, ...).  Values outside this domain
    (an integral float, a [_Template]) are not modelled. *)
Inductive keyarg := KInt (z : Z) | KStr (s : string) | KOther.

(** The [for name, notes in self.templates.items(): for note in notes:
    if note.id == id_] scan: the first match, as a reference. *)
Fixpoint find_in (k : Z) (l : list note) (i : nat) : option nat :=
  match l with
  | [] => None
  | n :: l' => if Z.eqb (id n) k then Some i else find_in k l' (S i)
  end.

Fixpoint find_note (k : Z) (tpl : list (string * list note)) : option ref :=
  match tpl with
  | [] => None
  | (name, l) :: tpl' =>
      match find_in k l 0 with
      | Some i => Some (name, i)
      | None => find_note k tpl'
      end
  end.

(** [Repo.delete_note]: the note is popped before [self.ids.remove(id_)],
    so a missing id leaves the pop done and raises [ValueError]. *)
Definition delete_note (k : keyarg) : M bool :=
  k' <- match k with
        | KStr str => if isnumeric str then ret (KInt (parse_int str))
                      else raise (StorageError SE_BadId)
        | _ => ret k
        end ;;
  match k' with
  | KInt z =>
      s <- get ;;
      match find_note z (templates s) with
      | None => raise (StorageError SE_NotFound)
      | Some (name, i) =>
          let l := match lookup name (templates s) with Some l => l | None => [] end in
          put (mk_repo (assign name (pop_nth i l) (templates s)) (ids s)) ;;;
          s' <- get ;;
          match list_remove z (ids s') with
          | None => raise ValueError
          | Some ids' => put (mk_repo (templates s') ids') ;;; ret true
          end
      end
  | _ => raise (StorageError SE_BadId)
  end.

(** [Repo.get_note]: a non-str, non-int id matches no note. *)
Definition get_note (k : keyarg) : M ref :=
  k' <- match k with
        | KStr str => if isnumeric str then ret (KInt (parse_int str))
                      else raise (StorageError SE_BadId)
        | _ => ret k
        end ;;
  s <- get ;;
  match k' with
  | KInt z =>
      match find_note z (templates s) with
      | Some r => ret r
      | None => raise (StorageError SE_NotFound)
      end
  | _ => raise (StorageError SE_NotFound)
  end.

(** [Repo.get_notes_of_type] *)
Definition get_notes_of_type (type_ : string) : M (list note) :=
  s <- get ;;
  match lookup type_ (templates s) with
  | None => raise (StorageError SE_BadType)
  | Some l => ret l
  end.

(** The object a reference points to, and [obj.note = b] on it. *)
Definition note_at (s : repo) (r : ref) : option note :=
  match lookup (fst r) (templates s) with
  | Some l => nth_error l (snd r)
  | None => None
  end.

Definition set_body (r : ref) (b : string) : M unit :=
  s <- get ;;
  match lookup (fst r) (templates s), note_at s r with
  | Some l, Some n =>
      put (mk_repo (assign (fst r) (update_nth (snd r) (mk_note (id n) b) l) (templates s))
                   (ids s))
  | _, _ => raise KeyError
  end.

(** [Repo.edit_type]: [note] is a [_Template] object, given by its class
    name and its attributes; [desired_type] is a class, given by its name
    (a class that is no [_Template] subclass has a name outside
    [subclass_names]). *)
Definition edit_type (obj : string * note) (desired_type : string) : M ref :=
  if negb (existsb (String.eqb desired_type) subclass_names)
  then raise (StorageError SE_BadType)
  else
    let note_attrs := to_dict (fst obj) (snd obj) in
    delete_note (KInt (t_id note_attrs)) ;;;
    _instantiate_templates (mk_template desired_type (t_id note_attrs) (t_note note_attrs)).

(** [Repo.generate_id].  [id_] is an int or the object [False]; the random
    source is a list of raw draws, [randint a b] maps a draw into [[a, b]].
    [None]: the loop has not returned within the draws supplied. *)
Inductive pyval := PInt (z : Z) | PFalse.

Definition is_False (v : pyval) : bool :=
  match v with PFalse => true | PInt _ => false end.

Definition randint (a b r : Z) : Z := a + r mod (b - a + 1).

(** [int("1" + "0" * (ID_DIGIT_LENGTH - 1))] and [int("9" * ID_DIGIT_LENGTH)]. *)
Definition id_low : Z := 10 ^ (ID_DIGIT_LENGTH - 1).
Definition id_high : Z := 10 ^ ID_DIGIT_LENGTH - 1.

Fixpoint generate_id_loop (used : list Z) (is_unique is_long_enough : bool)
    (id_ : pyval) (draws : list Z) : option pyval :=
  if negb (negb is_unique || negb is_long_enough) then Some id_
  else
    match draws with
    | [] => None
    | r :: draws' =>
        let v := PInt (randint id_low id_high r) in
        let z := randint id_low id_high r in
        let is_long_enough := if str_len z =? ID_DIGIT_LENGTH then true else is_long_enough in
        let is_unique := if negb (existsb (Z.eqb z) used) then true else is_unique in
        if is_False v || negb is_unique
        then generate_id_loop used false is_long_enough PFalse draws'
        else generate_id_loop used is_unique is_long_enough v draws'
    end.

Definition generate_id (draws : list Z) : M pyval :=
  s <- get ;;
  match generate_id_loop (ids s) false false PFalse draws with
  | Some v => ret v
  | None => raise NoReturn
  end.

(** ** [NoteKeeper] (src/notekeeper.py) *)

(** The [new_template] dict [create_note] receives: [_type] and [note]. *)
Record new_template := mk_new { n_type : string; n_note : string }.

(** The int an id value stands for ([False] is the int 0). *)
Definition pv_int (v : pyval) : Z := match v with PInt z => z | PFalse => 0 end.

(** [NoteKeeper.create_note]: the note is appended to [templates] directly;
    [Repo.ids] is not touched. *)
Definition create_note (new_t : option new_template) (id_ : option Z) (blank : bool)
    (draws : list Z) : M (string * note) :=
  if blank then
    v <- generate_id draws ;;
    ret ("_Template"%string, mk_note (pv_int v) "")
  else
    match new_t with
    | None => raise TypeError
    | Some t =>
        if negb (existsb (String.eqb (n_type t)) subclass_names)
        then raise NoteKeeperApplicationError
        else
          i <- match id_ with
               | Some z => ret z
               | None => v <- generate_id draws ;; ret (pv_int v)
               end ;;
          let n := mk_note i (n_note t) in
          s <- get ;;
          match lookup (n_type t) (templates s) with
          | None => raise KeyError
          | Some l =>
              put (mk_repo (assign (n_type t) (l ++ [n]) (templates s)) (ids s)) ;;;
              ret (n_type t, n)
          end
    end.

(** The [edited_template] dict [edit_note] receives. *)
Record edited_template := mk_edited { e_id : keyarg; e_type : string; e_note : string }.

(** [NoteKeeper.edit_note] *)
Definition edit_note (e : edited_template) : M ref :=
  z <- match e_id e with
       | KStr str => if isnumeric str then ret (parse_int str)
                     else raise NoteKeeperApplicationError
       | KInt z => ret z
       | KOther => raise NoteKeeperApplicationError
       end ;;
  s <- get ;;
  if negb (existsb (String.eqb (e_type e)) (map fst (templates s)))
  then raise NoteKeeperApplicationError
  else
    original <- get_note (KInt z) ;;
    if String.eqb (e_type e) (fst original) then
      set_body original (e_note e) ;;; ret original
    else
      r <- get_note (KInt z) ;;
      s' <- get ;;
      match note_at s' r with
      | None => raise KeyError
      | Some n =>
          new <- edit_type (fst r, n) (e_type e) ;;
          set_body new (e_note e) ;;; ret new
      end.

(** ** [_Template.__eq__] (src/core.py) *)

(** The Python values [__eq__] can be handed. *)
#[warnings="-register-all"]
Inductive pyobj :=
| PyInt (z : Z)
| PyBool (b : bool)
| PyStr (s : string)
| PyNone
| PyDict (d : list (string * pyobj))
| PyRecord (cls : string) (n : note).

(** [self.id == v] with [self.id] an int: [bool] is a subclass of [int];
    against a [_Template], [int.__eq__] gives [NotImplemented] and Python
    falls back on the reflected [_Template.__eq__(self.id)], which raises. *)
Definition int_eq (z : Z) (v : pyobj) : except bool :=
  match v with
  | PyInt z' => Ok (Z.eqb z z')
  | PyBool b => Ok (Z.eqb z (if b then 1 else 0))
  | PyRecord _ _ => Err CoreError
  | _ => Ok false
  end.

Definition template_eq (self : note) (other : pyobj) : except bool :=
  match other with
  | PyDict d =>
      match lookup "id" d with
      | Some v => int_eq (id self) v
      | None => Err CoreError
      end
  | PyRecord _ n => Ok (Z.eqb (id self) (id n))
  | _ => Err CoreError
  end.

(** A two-note state used by the witnesses: [load_test]-style data. *)
Definition st_two : repo :=
  mk_repo [("LimitedExam"%string, []);
           ("Surgery"%string, [mk_note 1234567890 "Remove wisdom tooth"]);
           ("HygieneExam"%string, [mk_note 2234567890 "Scaling"]);
           ("PeriodicExam"%string, []); ("ComprehensiveExam"%string, [])]
          [1234567890; 2234567890].

(** A state with three Surgery notes, for the order-sensitive witnesses. *)
Definition st_three : repo :=
  mk_repo [("LimitedExam"%string, []);
           ("Surgery"%string, [mk_note 1234567890 "Remove wisdom tooth";
                               mk_note 3234567890 "Extraction";
                               mk_note 4234567890 "Implant"]);
           ("HygieneExam"%string, [mk_note 2234567890 "Scaling"]);
           ("PeriodicExam"%string, []); ("ComprehensiveExam"%string, [])]
          [1234567890; 3234567890; 4234567890; 2234567890].

(** The state two [create_note] calls with the same caller-supplied id
    leave behind. *)
Definition st_dup : repo :=
  mk_repo [("LimitedExam"%string, []);
           ("Surgery"%string, [mk_note 1234567890 "note A"; mk_note 1234567890 "note B"]);
           ("HygieneExam"%string, []); ("PeriodicExam"%string, []);
           ("ComprehensiveExam"%string, [])]
          [].

(** ** The Key Index invariant (spec, section 3) *)

(** The ids held by all stored notes, category by category. *)
Definition all_ids (tpl : list (string * list note)) : list Z :=
  flat_map (fun p => map id (snd p)) tpl.

(** A repository state as the spec describes it: the registered categories,
    an id index that is a duplicate-free permutation of the stored ids, and
    ten-digit ids. *)
Record wf (s : repo) : Prop := {
  wf_names : map fst (templates s) = subclass_names;
  wf_perm : Permutation (ids s) (all_ids (templates s));
  wf_nodup : NoDup (ids s);
  wf_len : Forall (fun z => str_len z = ID_DIGIT_LENGTH) (ids s)
}.

(** [_save_to_yaml]'s path test, and the extension of a path as the spec
    and the error message mean it: the text after its last dot. *)
Definition save_path_ok (p : string) : bool :=
  match nth_error (split_dot p) 1 with
  | Some e => String.eqb e "yaml" || String.eqb e "yml"
  | None => false
  end.

Definition extension (p : string) : string := last (split_dot p) EmptyString.

(** What [_instantiate_templates] does to [templates] when it succeeds. *)
Definition add_note (tpl : list (string * list note)) (t : template) :=
  match lookup (t_type t) tpl with
  | Some l => assign (t_type t) (l ++ [mk_note (t_id t) (t_note t)]) tpl
  | None => tpl
  end.

Definition empties (tpl : list (string * list note)) : list (string * list note) :=
  map (fun p => (fst p, [])) tpl.

(** The body rewrite [edit_note] performs, as a map over a category list. *)
Definition edit_body (k : Z) (b : string) (m : note) : note :=
  if Z.eqb (id m) k then mk_note k b else m.

(** ** Rendering: [str(int)], [_Template.__str__] (src/core.py) *)

(** [str(z)] for a Python int: the decimal digits of [|z|], most
    significant first, after a ["-"] for a negative number.  The fuel is the
    one [str_len] uses. *)
Definition digit (d : Z) : ascii := ascii_of_nat (48 + Z.to_nat d).

Fixpoint digits_str (fuel : nat) (n : Z) (acc : string) : string :=
  match fuel with
  | O => String (digit n) acc
  | S f => if n <? 10 then String (digit n) acc
           else digits_str f (n / 10) (String (digit (n mod 10)) acc)
  end.

Definition str_of_Z (z : Z) : string :=
  let s := digits_str (S (Z.to_nat (Z.log2 (Z.abs z)))) (Z.abs z) EmptyString in
  if z <? 0 then String "-"%char s else s.

(** The one-character string ["\n"]. *)
Definition nl : string := String (ascii_of_nat 10) EmptyString.

(** [_Template.__str__] of a note stored in [templates[name]]:
    ['Type: {}\nID: {}\n\n{}'.format(_type, self.id, self.note)]. *)
Definition template_str (name : string) (n : note) : string :=
  ("Type: " ++ name ++ nl ++ "ID: " ++ str_of_Z (id n) ++ nl ++ nl ++ body n)%string.

(** ** The remaining [NoteKeeper] entry points (src/notekeeper.py) *)

(** [Repo.note_classes]: class name -> class object; a class object is
    given by its name. *)
Definition note_classes : list (string * string) :=
  map (fun c => (c, c)) subclass_names.

(** [NoteKeeper.get_class]: [self.note_classes[note.to_dict()['_type']]]. *)
Definition get_class (obj : string * note) : except string :=
  match lookup (t_type (to_dict (fst obj) (snd obj))) note_classes with
  | Some cls => Ok cls
  | None => Err KeyError
  end.

(** [NoteKeeper.create_from_attributes] *)
Definition create_from_attributes (type_ notes : string) (id_ : option Z)
    (draws : list Z) : M (string * note) :=
  create_note (Some (mk_new type_ notes)) id_ false draws.

(** One block of the [str_=True] text of [NoteKeeper.get_notes_of_type]:
    [f'\n\nNumber: {num}\n' + note + '\n']. *)
Definition number_block (name : string) (num : Z) (n : note) : string :=
  (nl ++ nl ++ "Number: " ++ str_of_Z num ++ nl ++ template_str name n ++ nl)%string.

(** The loop [num += 1; text += pretty] over the notes, [num] starting at
    the value given. *)
Fixpoint pretty_notes (name : string) (num : Z) (l : list note) : string :=
  match l with
  | [] => EmptyString
  | n :: l' => (number_block name (num + 1) n ++ pretty_notes name (num + 1) l')%string
  end.

(** The two return shapes of [NoteKeeper.get_notes_of_type]. *)
Inductive notes_or_text := NNotes (l : list note) | NText (t : string).

(** [NoteKeeper.get_notes_of_type] *)
Definition nk_get_notes_of_type (type_ : string) (str_ : bool) : M notes_or_text :=
  notes <- get_notes_of_type type_ ;;
  if str_ then ret (NText (pretty_notes type_ 0 notes)) else ret (NNotes notes).

(** Python's ["." in p]. *)
Fixpoint contains_dot (p : string) : bool :=
  match p with
  | EmptyString => false
  | String c p' => Ascii.eqb c "."%char || contains_dot p'
  end.

(** ** General lemmas *)

Lemma lookup_assign_same {A} (k : string) (v : A) d x :
  lookup k d = Some x -> lookup k (assign k v d) = Some v.
Proof.
  induction d as [|[k' v'] d IH]; simpl; [discriminate|].
  destruct (String.eqb k k') eqn:E; simpl; rewrite ?E; auto.
Qed.

Lemma lookup_assign_other {A} (k k' : string) (v : A) d :
  k <> k' -> lookup k' (assign k v d) = lookup k' d.
Proof.
  intros Hne. induction d as [|[k0 v0] d IH]; simpl; auto.
  destruct (String.eqb k k0) eqn:E; simpl.
  - apply String.eqb_eq in E; subst k0.
    destruct (String.eqb k' k) eqn:E'; auto.
    apply String.eqb_eq in E'; congruence.
  - rewrite IH; auto.
Qed.

Lemma assign_assign {A} (k : string) (v1 v2 : A) d :
  assign k v2 (assign k v1 d) = assign k v2 d.
Proof.
  induction d as [|[k0 v0] d IH]; simpl; auto.
  destruct (String.eqb k k0) eqn:E; simpl; rewrite E; [reflexivity|].
  rewrite IH; reflexivity.
Qed.

Lemma map_fst_assign {A} (k : string) (v : A) d :
  map fst (assign k v d) = map fst d.
Proof.
  induction d as [|[k0 v0] d IH]; simpl; auto.
  destruct (String.eqb k k0); simpl; rewrite ?IH; reflexivity.
Qed.

Lemma lookup_in_keys {A} (k : string) (d : list (string * A)) :
  In k (map fst d) -> exists x, lookup k d = Some x.
Proof.
  induction d as [|[k0 v0] d IH]; simpl; [tauto|].
  intros [H|H]; destruct (String.eqb k k0) eqn:E; eauto.
  subst; rewrite String.eqb_refl in E; discriminate.
Qed.

(** A key found by [lookup] splits the list at its first occurrence. *)
Lemma lookup_split {A} (k : string) (d : list (string * A)) x :
  lookup k d = Some x ->
  exists P Q, d = P ++ (k, x) :: Q /\ ~ In k (map fst P)
              /\ forall v, assign k v d = P ++ (k, v) :: Q.
Proof.
  induction d as [|[k0 v0] d IH]; simpl; [discriminate|].
  destruct (String.eqb k k0) eqn:E.
  - apply String.eqb_eq in E; subst k0. intros [= ->].
    exists [], d; split; [reflexivity|split; [simpl; tauto|]].
    intros v; reflexivity.
  - intros H. destruct (IH H) as (P & Q & -> & HP & Ha).
    exists ((k0, v0) :: P), Q; simpl; split; [reflexivity|split].
    + intros [Hk|Hk]; [subst; rewrite String.eqb_refl in E; discriminate|tauto].
    + intros v; rewrite Ha; reflexivity.
Qed.

Lemma all_ids_app tpl1 tpl2 : all_ids (tpl1 ++ tpl2) = all_ids tpl1 ++ all_ids tpl2.
Proof. unfold all_ids; apply flat_map_app. Qed.

Lemma all_ids_cons k l tpl : all_ids ((k, l) :: tpl) = map id l ++ all_ids tpl.
Proof. reflexivity. Qed.

(** ** [len(str(z))] on ten-digit numbers *)

Lemma pow10_mono a b : 0 <= a <= b -> 10 ^ a <= 10 ^ b.
Proof. intros; apply Z.pow_le_mono_r; lia. Qed.

Lemma digits_aux_exact (f : nat) : forall n d,
  1 <= d -> d <= Z.of_nat f -> 10 ^ (d - 1) <= n < 10 ^ d -> digits_aux f n = d.
Proof.
  induction f as [|f IH]; intros n d Hd Hf Hn; [simpl in Hf; lia|].
  rewrite Nat2Z.inj_succ in Hf. cbn [digits_aux].
  destruct (n <? 10) eqn:E.
  - apply Z.ltb_lt in E.
    destruct (Z.eq_dec d 1) as [->|Hd1]; [reflexivity|].
    assert (10 ^ 1 <= 10 ^ (d - 1)) by (apply pow10_mono; lia). simpl in *; lia.
  - apply Z.ltb_ge in E.
    assert (Hd2 : 2 <= d).
    { destruct (Z.eq_dec d 1) as [->|]; [simpl in Hn; lia | lia]. }
    rewrite (IH (n / 10) (d - 1)); try lia.
    split.
    + apply Z.div_le_lower_bound; [lia|].
      replace (10 * 10 ^ (d - 1 - 1)) with (10 ^ (d - 1)); [lia|].
      rewrite <- Z.pow_succ_r by lia. f_equal; lia.
    + apply Z.div_lt_upper_bound; [lia|].
      replace (10 * 10 ^ (d - 1)) with (10 ^ d); [lia|].
      rewrite <- Z.pow_succ_r by lia. f_equal; lia.
Qed.

Lemma str_len_ten z : 10 ^ 9 <= z <= 10 ^ 10 - 1 -> str_len z = 10.
Proof.
  intros Hz. unfold str_len.
  replace (z <? 0) with false by (symmetry; apply Z.ltb_ge; lia).
  rewrite Z.abs_eq by lia.
  apply digits_aux_exact; [lia| |lia].
  assert (Z.log2 (10 ^ 9) <= Z.log2 z) by (apply Z.log2_le_mono; lia).
  assert (Z.log2 (10 ^ 9) = 29) by reflexivity.
  rewrite Nat2Z.inj_succ, Z2Nat.id by (apply Z.log2_nonneg). lia.
Qed.

(** ** Key generation *)

Lemma randint_range r : id_low <= randint id_low id_high r <= id_high.
Proof.
  unfold randint, id_low, id_high, ID_DIGIT_LENGTH.
  assert (Hm : 10 ^ 10 - 1 - 10 ^ (10 - 1) + 1 = 9000000000) by reflexivity.
  rewrite Hm.
  assert (Hl : 10 ^ (10 - 1) = 1000000000) by reflexivity.
  assert (Hh : 10 ^ 10 = 10000000000) by reflexivity.
  rewrite Hl, Hh.
  pose proof (Z.mod_pos_bound r 9000000000). lia.
Qed.

Lemma str_len_randint r : str_len (randint id_low id_high r) = ID_DIGIT_LENGTH.
Proof.
  apply str_len_ten. pose proof (randint_range r).
  unfold id_low, id_high, ID_DIGIT_LENGTH in *. exact H.
Qed.

Lemma generate_id_loop_done used draws v :
  generate_id_loop used true true v draws = Some v.
Proof. destruct draws; reflexivity. Qed.

(** The loop keeps [is_unique -> is_long_enough]; under it, a value it
    returns is either the one it was entered with (already unique) or a
    fresh in-range draw absent from [used]. *)
Lemma generate_id_loop_spec used draws : forall u l idv v,
  (u = true -> l = true) ->
  generate_id_loop used u l idv draws = Some v ->
  (u = true /\ v = idv)
  \/ (exists z, v = PInt z /\ id_low <= z <= id_high /\ ~ In z used).
Proof.
  induction draws as [|r draws IH]; intros u l idv v Hul H.
  - destruct u, l; simpl in H; try discriminate; inversion H; auto.
  - destruct u.
    + rewrite (Hul eq_refl) in H. simpl in H. inversion H; auto.
    + cbn [generate_id_loop negb orb] in H.
      rewrite str_len_randint, Z.eqb_refl in H.
      destruct (existsb (Z.eqb (randint id_low id_high r)) used) eqn:Ex;
        cbn [negb is_False orb] in H.
      * destruct (IH false true PFalse v) as [[? _]|Hz]; auto; discriminate.
      * rewrite generate_id_loop_done in H.
        pose proof (randint_range r) as Hr.
        revert H Ex Hr; generalize (randint id_low id_high r); intros z H Ex Hr.
        injection H as <-. right.
        exists z; split; [reflexivity|split; [exact Hr|]].
        intros Hin. assert (existsb (Z.eqb z) used = true)
          by (apply existsb_exists; eexists; split; [exact Hin|apply Z.eqb_refl]).
        congruence.
Qed.

(** ** Bounding the [flat_map] of stored ids *)

Lemma in_all_ids tpl c l n :
  lookup c tpl = Some l -> In n l -> In (id n) (all_ids tpl).
Proof.
  intros Hl Hn. destruct (lookup_split c tpl l Hl) as (P & Q & -> & _ & _).
  rewrite all_ids_app, all_ids_cons. apply in_or_app; right; apply in_or_app; left.
  now apply in_map.
Qed.

(** ** Loading: [_instantiate_templates] and [_load_obj] on good data *)

Lemma subclass_names_nodup : NoDup subclass_names.
Proof. unfold subclass_names; repeat constructor; simpl; intuition discriminate. Qed.

Lemma in_subclass_names_existsb k :
  In k subclass_names -> existsb (String.eqb k) subclass_names = true.
Proof.
  intros H; apply existsb_exists; exists k; split; [exact H|apply String.eqb_refl].
Qed.

Lemma not_in_existsb z l : ~ In z l -> existsb (Z.eqb z) l = false.
Proof.
  intros H. destruct (existsb (Z.eqb z) l) eqn:E; [|reflexivity].
  apply existsb_exists in E as (y & Hy & Ey). apply Z.eqb_eq in Ey; subst; tauto.
Qed.

Lemma instantiate_ok t s l :
  In (t_type t) subclass_names ->
  lookup (t_type t) (templates s) = Some l ->
  str_len (t_id t) = ID_DIGIT_LENGTH ->
  ~ In (t_id t) (ids s) ->
  _instantiate_templates t s
  = (Ok (t_type t, List.length l),
     mk_repo (assign (t_type t) (l ++ [mk_note (t_id t) (t_note t)]) (templates s))
             (ids s ++ [t_id t])).
Proof.
  intros Hc Hl Hlen Hn. unfold _instantiate_templates.
  rewrite in_subclass_names_existsb by exact Hc. cbn [negb].
  unfold bind, _add_id, get, put, ret, raise. cbn.
  rewrite Hlen, Z.eqb_refl, not_in_existsb by exact Hn. cbn.
  rewrite Hl. reflexivity.
Qed.

Lemma load_list_ok ts : forall s,
  map fst (templates s) = subclass_names ->
  Forall (fun t => In (t_type t) subclass_names) ts ->
  NoDup (ids s ++ map t_id ts) ->
  Forall (fun t => str_len (t_id t) = ID_DIGIT_LENGTH) ts ->
  load_list ts s
  = (Ok tt, mk_repo (fold_left add_note ts (templates s)) (ids s ++ map t_id ts)).
Proof.
  induction ts as [|t ts IH]; intros s Hk Hc Hnd Hlen.
  - simpl; rewrite app_nil_r; destruct s; reflexivity.
  - inversion Hc as [|? ? Hc1 Hc2]; inversion Hlen as [|? ? Hl1 Hl2]; subst.
    assert (Hin : In (t_type t) (map fst (templates s))) by (rewrite Hk; exact Hc1).
    destruct (lookup_in_keys _ _ Hin) as [l Hl].
    simpl. unfold bind at 1.
    rewrite (instantiate_ok t s l Hc1 Hl Hl1).
    2: { intros Hi. apply (NoDup_remove_2 _ _ _ Hnd). apply in_or_app; left; exact Hi. }
    rewrite IH; cbn [templates ids].
    + assert (Ha : add_note (templates s) t
                   = assign (t_type t) (l ++ [mk_note (t_id t) (t_note t)]) (templates s))
        by (unfold add_note; rewrite Hl; reflexivity).
      cbn [fold_left]. rewrite Ha, <- app_assoc. reflexivity.
    + rewrite map_fst_assign; exact Hk.
    + exact Hc2.
    + rewrite <- app_assoc; exact Hnd.
    + exact Hl2.
Qed.

Lemma assign_lookup_self {A} k (d : list (string * A)) x :
  lookup k d = Some x -> assign k x d = d.
Proof.
  intros H. destruct (lookup_split k d x H) as (P & Q & E & _ & Ha).
  rewrite Ha, E; reflexivity.
Qed.

Lemma note_eta n : mk_note (id n) (body n) = n.
Proof. destruct n; reflexivity. Qed.

(** Reloading one category's dicts appends its notes, in order. *)
Lemma fold_category n l : forall acc lk,
  lookup n acc = Some lk ->
  fold_left add_note (map (to_dict n) l) acc = assign n (lk ++ l) acc.
Proof.
  induction l as [|x l IH]; intros acc lk H; simpl.
  - rewrite app_nil_r; symmetry; apply assign_lookup_self; exact H.
  - assert (Ha : add_note acc (to_dict n x) = assign n (lk ++ [x]) acc)
      by (unfold add_note, to_dict; cbn [t_type t_id t_note]; rewrite H, note_eta; reflexivity).
    rewrite Ha.
    rewrite (IH _ (lk ++ [x])) by (eapply lookup_assign_same; exact H).
    rewrite assign_assign, <- app_assoc. reflexivity.
Qed.

Lemma lookup_app_notin {A} k P (d : list (string * A)) :
  ~ In k (map fst P) -> lookup k (P ++ d) = lookup k d.
Proof.
  induction P as [|[k0 v0] P IH]; simpl; auto.
  intros Hn. destruct (String.eqb k k0) eqn:E.
  - apply String.eqb_eq in E; subst; tauto.
  - apply IH; tauto.
Qed.

Lemma assign_app_notin {A} k v P (d : list (string * A)) :
  ~ In k (map fst P) -> assign k v (P ++ d) = P ++ assign k v d.
Proof.
  induction P as [|[k0 v0] P IH]; simpl; auto.
  intros Hn. destruct (String.eqb k k0) eqn:E.
  - apply String.eqb_eq in E; subst; tauto.
  - rewrite IH by tauto; reflexivity.
Qed.

Lemma fold_records tpl : forall P,
  NoDup (map fst tpl) ->
  (forall k, In k (map fst tpl) -> ~ In k (map fst P)) ->
  fold_left add_note (records_of tpl) (P ++ empties tpl) = P ++ tpl.
Proof.
  induction tpl as [|[n l] tpl IH]; intros P Hnd Hdis; simpl.
  - rewrite app_nil_r; reflexivity.
  - inversion Hnd as [|? ? Hn Hnd']; subst.
    rewrite fold_left_app.
    rewrite (fold_category n l _ []).
    2: { rewrite lookup_app_notin by (apply Hdis; left; reflexivity).
         simpl; rewrite String.eqb_refl; reflexivity. }
    rewrite assign_app_notin by (apply Hdis; left; reflexivity).
    simpl; rewrite String.eqb_refl.
    replace (P ++ (n, l) :: empties tpl) with ((P ++ [(n, l)]) ++ empties tpl)
      by (rewrite <- app_assoc; reflexivity).
    rewrite IH; [rewrite <- app_assoc; reflexivity|exact Hnd'|].
    intros k Hk. rewrite map_app, in_app_iff; simpl.
    intros [H|[H|H]]; [exact (Hdis k (or_intror Hk) H)|subst; tauto|exact H].
Qed.

Lemma records_of_ids tpl : map t_id (records_of tpl) = all_ids tpl.
Proof.
  induction tpl as [|[n l] tpl IH]; simpl; [reflexivity|].
  rewrite map_app, IH, map_map. reflexivity.
Qed.

Lemma records_of_types tpl :
  Forall (fun t => In (t_type t) (map fst tpl)) (records_of tpl).
Proof.
  induction tpl as [|[n l] tpl IH]; simpl; [constructor|].
  apply Forall_app; split.
  - apply Forall_forall; intros t Ht. apply in_map_iff in Ht as (x & <- & _).
    left; reflexivity.
  - eapply Forall_impl; [|exact IH]. intros t H; right; exact H.
Qed.

Lemma lookup_write_file f p c : lookup p (write_file f p c) = Some c.
Proof.
  unfold write_file. destruct (lookup p f) eqn:E.
  - eapply lookup_assign_same; exact E.
  - induction f as [|[k v] f IH]; simpl in *.
    + rewrite String.eqb_refl; reflexivity.
    + destruct (String.eqb p k); [discriminate|]. apply IH; exact E.
Qed.

(** ** Finding, deleting and updating a stored note *)

Lemma nodup_app_disjoint {A} (l1 l2 : list A) x :
  NoDup (l1 ++ l2) -> In x l1 -> ~ In x l2.
Proof.
  induction l1 as [|y l1 IH]; simpl; [tauto|].
  intros Hnd [<-|Hx] Hx2; inversion Hnd as [|? ? Hn Hnd']; subst.
  - apply Hn, in_or_app; right; exact Hx2.
  - exact (IH Hnd' Hx Hx2).
Qed.

Lemma id_inj_nodup l m n :
  NoDup (map id l) -> In m l -> In n l -> id m = id n -> m = n.
Proof.
  induction l as [|x l IH]; simpl; [tauto|].
  intros Hnd Hm Hn Heq; inversion Hnd as [|? ? Hx Hnd']; subst.
  destruct Hm as [<-|Hm], Hn as [<-|Hn]; auto.
  - exfalso; apply Hx; rewrite Heq; apply in_map; exact Hn.
  - exfalso; apply Hx; rewrite <- Heq; apply in_map; exact Hm.
Qed.

Lemma find_in_some k l : forall j i,
  find_in k l j = Some i -> (j <= i)%nat /\ exists m, nth_error l (i - j) = Some m /\ id m = k.
Proof.
  induction l as [|x l IH]; simpl; intros j i H; [discriminate|].
  destruct (Z.eqb (id x) k) eqn:E.
  - injection H as <-. split; [lia|]. exists x; rewrite Nat.sub_diag; split; auto.
    apply Z.eqb_eq; exact E.
  - destruct (IH (S j) i H) as [Hle (m & Hm & Hid)]. split; [lia|].
    exists m; split; auto. replace (i - j)%nat with (S (i - S j)) by lia. exact Hm.
Qed.

Lemma find_in_none k l j : find_in k l j = None -> ~ In k (map id l).
Proof.
  revert j; induction l as [|x l IH]; simpl; intros j H; [tauto|].
  destruct (Z.eqb (id x) k) eqn:E; [discriminate|].
  intros [Hx|Hx]; [subst; rewrite Z.eqb_refl in E; discriminate|exact (IH _ H Hx)].
Qed.

Lemma find_in_absent k l j : ~ In k (map id l) -> find_in k l j = None.
Proof.
  revert j; induction l as [|x l IH]; simpl; intros j H; [reflexivity|].
  destruct (Z.eqb (id x) k) eqn:E; [apply Z.eqb_eq in E; tauto|].
  apply IH; tauto.
Qed.

Lemma find_note_absent k tpl : ~ In k (all_ids tpl) -> find_note k tpl = None.
Proof.
  induction tpl as [|[c l] tpl IH]; simpl; intros H; [reflexivity|].
  rewrite in_app_iff in H. rewrite find_in_absent by tauto. apply IH; tauto.
Qed.

(** In a state with unique ids, the scan finds a stored note where it is. *)
Lemma find_note_stored tpl c l n :
  NoDup (map fst tpl) -> NoDup (all_ids tpl) ->
  lookup c tpl = Some l -> In n l ->
  exists i, find_note (id n) tpl = Some (c, i) /\ nth_error l i = Some n.
Proof.
  induction tpl as [|[c0 l0] tpl IH]; simpl; intros Hk Hnd Hl Hn; [discriminate|].
  inversion Hk as [|? ? Hc0 Hk']; subst.
  destruct (String.eqb c c0) eqn:E.
  - apply String.eqb_eq in E; subst c0. injection Hl as ->.
    destruct (find_in (id n) l 0) as [i|] eqn:F.
    + destruct (find_in_some _ _ _ _ F) as [_ (m & Hm & Hid)].
      rewrite Nat.sub_0_r in Hm. exists i; split; [reflexivity|].
      rewrite Hm; f_equal. eapply id_inj_nodup; eauto.
      * eapply NoDup_app_remove_r; exact Hnd.
      * eapply nth_error_In; exact Hm.
    + exfalso; eapply find_in_none; [exact F|]. apply in_map; exact Hn.
  - rewrite find_in_absent.
    + apply IH; auto. eapply NoDup_app_remove_l; exact Hnd.
    + intros Hin. eapply nodup_app_disjoint; [exact Hnd|exact Hin|].
      eapply in_all_ids; eauto.
Qed.

Lemma list_remove_spec x l :
  In x l -> exists a b, l = a ++ x :: b /\ list_remove x l = Some (a ++ b).
Proof.
  induction l as [|y l IH]; simpl; [tauto|]. intros H.
  destruct (Z.eqb x y) eqn:E.
  - apply Z.eqb_eq in E; subst. exists [], l; split; reflexivity.
  - destruct H as [->|H]; [rewrite Z.eqb_refl in E; discriminate|].
    destruct (IH H) as (a & b & -> & Hr). exists (y :: a), b; split; [reflexivity|].
    rewrite Hr; reflexivity.
Qed.

Lemma pop_nth_split {A} (l1 l2 : list A) x :
  pop_nth (List.length l1) (l1 ++ x :: l2) = l1 ++ l2.
Proof. induction l1 as [|y l1 IH]; simpl; [reflexivity|]. rewrite IH; reflexivity. Qed.

Lemma update_nth_split {A} (l1 l2 : list A) x y :
  update_nth (List.length l1) y (l1 ++ x :: l2) = l1 ++ y :: l2.
Proof. induction l1 as [|z l1 IH]; simpl; [reflexivity|]. rewrite IH; reflexivity. Qed.

Lemma wf_keys_nodup s : wf s -> NoDup (map fst (templates s)).
Proof. intros W; rewrite (wf_names s W); exact subclass_names_nodup. Qed.

Lemma wf_all_ids_nodup s : wf s -> NoDup (all_ids (templates s)).
Proof. intros W; exact (Permutation_NoDup (wf_perm s W) (wf_nodup s W)). Qed.

Lemma wf_stored_in_ids s c l n :
  wf s -> lookup c (templates s) = Some l -> In n l -> In (id n) (ids s).
Proof.
  intros W Hl Hn. apply (Permutation_in _ (Permutation_sym (wf_perm s W))).
  eapply in_all_ids; eauto.
Qed.

Lemma nodup_lookup tpl c l :
  NoDup (all_ids tpl) -> lookup c tpl = Some l -> NoDup (map id l).
Proof.
  intros Hnd Hl. destruct (lookup_split c tpl l Hl) as (P & Q & -> & _ & _).
  rewrite all_ids_app, all_ids_cons in Hnd.
  apply NoDup_app_remove_l in Hnd. apply NoDup_app_remove_r in Hnd. exact Hnd.
Qed.

(** [Repo.delete_note] on a stored note of a well-formed state. *)
Lemma delete_note_stored s c l n :
  wf s -> lookup c (templates s) = Some l -> In n l ->
  exists l1 l2 a b,
    l = l1 ++ n :: l2 /\ ids s = a ++ id n :: b /\
    delete_note (KInt (id n)) s
    = (Ok true, mk_repo (assign c (l1 ++ l2) (templates s)) (a ++ b)).
Proof.
  intros W Hl Hn.
  destruct (find_note_stored _ c l n (wf_keys_nodup s W) (wf_all_ids_nodup s W) Hl Hn)
    as (i & Hf & Hi).
  destruct (nth_error_split l i Hi) as (l1 & l2 & El & Hlen).
  destruct (list_remove_spec (id n) (ids s) (wf_stored_in_ids s c l n W Hl Hn))
    as (a & b & Eids & Hr).
  exists l1, l2, a, b; split; [exact El|split; [exact Eids|]].
  unfold delete_note, bind, ret, get, put; cbn.
  rewrite Hf, Hl. cbn. rewrite Hr, El, <- Hlen, pop_nth_split. reflexivity.
Qed.

(** After that delete no stored note carries the id any more. *)
Lemma delete_clears_id tpl c l1 n l2 :
  NoDup (all_ids tpl) -> lookup c tpl = Some (l1 ++ n :: l2) ->
  ~ In (id n) (all_ids (assign c (l1 ++ l2) tpl)).
Proof.
  intros Hnd Hl. destruct (lookup_split c tpl _ Hl) as (P & Q & E & _ & Ha).
  rewrite Ha. rewrite E in Hnd.
  rewrite all_ids_app, all_ids_cons, map_app in Hnd |- *. simpl in Hnd.
  rewrite <- !app_assoc in Hnd. simpl in Hnd.
  rewrite app_assoc in Hnd. apply NoDup_remove_2 in Hnd.
  rewrite !in_app_iff in *. tauto.
Qed.

Lemma lookup_in {A} k (d : list (string * A)) x : lookup k d = Some x -> In (k, x) d.
Proof.
  induction d as [|[k0 v0] d IH]; simpl; [discriminate|].
  destruct (String.eqb k k0) eqn:E.
  - apply String.eqb_eq in E; subst; intros [= ->]; left; reflexivity.
  - intros H; right; exact (IH H).
Qed.

Lemma in_pair_all_ids tpl k l' z :
  In (k, l') tpl -> In z (map id l') -> In z (all_ids tpl).
Proof.
  intros Hp Hz. unfold all_ids. apply in_flat_map. exists (k, l'); split; [exact Hp|exact Hz].
Qed.

Lemma get_note_found s z r :
  find_note z (templates s) = Some r -> get_note (KInt z) s = (Ok r, s).
Proof. intros H. unfold get_note, bind, ret, get; cbn. rewrite H; reflexivity. Qed.

Lemma set_body_at s c i l n b :
  lookup c (templates s) = Some l -> nth_error l i = Some n ->
  set_body (c, i) b s
  = (Ok tt, mk_repo (assign c (update_nth i (mk_note (id n) b) l) (templates s)) (ids s)).
Proof.
  intros Hl Hi. unfold set_body, note_at, bind, get, put; cbn [fst snd].
  rewrite Hl, Hi. reflexivity.
Qed.

Lemma map_edit_body_absent k b l' : ~ In k (map id l') -> map (edit_body k b) l' = l'.
Proof.
  induction l' as [|m l' IH]; simpl; intros H; [reflexivity|].
  unfold edit_body at 1. destruct (Z.eqb (id m) k) eqn:E.
  - apply Z.eqb_eq in E; tauto.
  - rewrite IH by tauto; reflexivity.
Qed.

(** * Claims *)

(** ** C1 (Key Index invariant)

    [NoteKeeper.create_note] appends the new note to [templates] without
    calling [Repo._add_id], so from the empty repository one create leaves
    a stored id missing from [Repo.ids]; deleting that note then pops it
    and raises [ValueError] at [self.ids.remove(id_)]. *)
Theorem C1_create_note_skips_id_index :
  exists s,
    create_note (Some (mk_new "Surgery" "Remove wisdom tooth")) None false [0] repo_init
      = (Ok ("Surgery"%string, mk_note 1000000000 "Remove wisdom tooth"), s)
    /\ all_ids (templates s) = [1000000000]
    /\ ids s = []
    /\ fst (delete_note (KInt 1000000000) s) = Err ValueError.
Proof.
  eexists; split; [vm_compute; reflexivity|].
  split; [reflexivity|split; [reflexivity|vm_compute; reflexivity]].
Qed.

(** ** C2 (duplicate caller-supplied key)

    [create("Surgery", "note A", key=1234567890)] followed by
    [create("Surgery", "note B", key=1234567890)]: the second call returns
    normally and the Surgery list holds two notes with that key. *)
Theorem C2_duplicate_key_accepted :
  exists s1 s2,
    create_note (Some (mk_new "Surgery" "note A")) (Some 1234567890) false [] repo_init
      = (Ok ("Surgery"%string, mk_note 1234567890 "note A"), s1)
    /\ create_note (Some (mk_new "Surgery" "note B")) (Some 1234567890) false [] s1
      = (Ok ("Surgery"%string, mk_note 1234567890 "note B"), s2)
    /\ lookup "Surgery" (templates s2)
       = Some [mk_note 1234567890 "note A"; mk_note 1234567890 "note B"].
Proof.
  do 2 eexists; split; [vm_compute; reflexivity|].
  split; [vm_compute; reflexivity|vm_compute; reflexivity].
Qed.

(** ** C3 (loading a missing or empty file)

    [full_load] returns [None] on the empty stream, and [_load_obj]
    iterates over it: [Repo().load()] raises [TypeError] when the data file
    is absent (it is created empty by [touch]) and when it is empty. *)
Theorem C3_load_empty_raises :
  fst (load [] DEFAULT_RECORDS_FILENAME repo_init) = Err TypeError
  /\ fst (load [(DEFAULT_RECORDS_FILENAME, CEmpty)] DEFAULT_RECORDS_FILENAME repo_init)
     = Err TypeError.
Proof. split; vm_compute; reflexivity. Qed.

(** ** C4 (save/load round-trip)

    For a state whose categories are the registered ones and whose stored
    ids are distinct and ten-digit, [Repo.save] to a path it accepts and
    then [Repo.load] of that path into a fresh [Repo()] rebuild exactly the
    same category lists (hence the same (category, id, note) triples) and an
    id index holding exactly their ids. *)
Theorem C4_save_load_roundtrip f p st :
  save_path_ok p = true ->
  map fst (templates st) = subclass_names ->
  NoDup (all_ids (templates st)) ->
  Forall (fun z => str_len z = ID_DIGIT_LENGTH) (all_ids (templates st)) ->
  exists f' f'',
    save f p st = (Ok (f', true), st)
    /\ load f' p repo_init = (Ok f'', mk_repo (templates st) (all_ids (templates st))).
Proof.
  intros Hp Hk Hnd Hlen.
  set (recs := records_of (templates st)).
  assert (Hs : _save_to_yaml f recs p = Ok (write_file f p (CDump recs))).
  { unfold save_path_ok in Hp; unfold _save_to_yaml.
    destruct (nth_error (split_dot p) 1) as [e|]; [|discriminate].
    destruct (String.eqb e "yaml"), (String.eqb e "yml"); simpl in *;
      congruence. }
  exists (write_file f p (CDump recs)), (write_file f p (CDump recs)). split.
  - unfold save, bind, get; cbn beta iota. fold recs. rewrite Hs. reflexivity.
  - unfold load, _get_from_yaml, touch. rewrite !lookup_write_file. cbn [full_load].
    unfold _load_obj, bind.
    assert (Hinit : templates repo_init = [] ++ empties (templates st)).
    { unfold repo_init, empties; cbn [templates app]. rewrite <- Hk, map_map. reflexivity. }
    rewrite load_list_ok.
    + rewrite Hinit. unfold recs. rewrite fold_records; cbn [app ids repo_init].
      * rewrite records_of_ids. reflexivity.
      * rewrite Hk; exact subclass_names_nodup.
      * intros; simpl; tauto.
    + reflexivity.
    + rewrite <- Hk; apply records_of_types.
    + cbn [ids repo_init app]; unfold recs; rewrite records_of_ids; exact Hnd.
    + unfold recs. apply (proj1 (Forall_map t_id (fun z => str_len z = ID_DIGIT_LENGTH) _)).
      rewrite records_of_ids. exact Hlen.
Qed.

Lemma C4_save_load_roundtrip_witness :
  exists f' f'',
    save [] DEFAULT_RECORDS_FILENAME st_two = (Ok (f', true), st_two)
    /\ load f' DEFAULT_RECORDS_FILENAME repo_init
       = (Ok f'', mk_repo (templates st_two) (all_ids (templates st_two))).
Proof.
  apply C4_save_load_roundtrip; [reflexivity|reflexivity| |].
  - vm_compute. repeat constructor; simpl; lia.
  - repeat constructor.
Defined.

(** ** C7 (delete then get)

    In a well-formed state, [Repo.delete_note(k)] on the id [k] of a stored
    note returns [True], pops that note from its category list and [k] from
    [Repo.ids]; [Repo.get_note(k)] afterwards raises the not-found
    [StorageError]. *)
Theorem C7_delete_then_get s c l n :
  wf s -> lookup c (templates s) = Some l -> In n l ->
  exists s',
    delete_note (KInt (id n)) s = (Ok true, s')
    /\ (exists l1 l2, l = l1 ++ n :: l2 /\ lookup c (templates s') = Some (l1 ++ l2))
    /\ (exists a b, ids s = a ++ id n :: b /\ ids s' = a ++ b)
    /\ ~ In (id n) (ids s')
    /\ get_note (KInt (id n)) s' = (Err (StorageError SE_NotFound), s').
Proof.
  intros W Hl Hn.
  destruct (delete_note_stored s c l n W Hl Hn) as (l1 & l2 & a & b & El & Eids & Hd).
  eexists; split; [exact Hd|].
  split; [exists l1, l2; split; [exact El|]; cbn; eapply lookup_assign_same; exact Hl|].
  split; [exists a, b; split; [exact Eids|reflexivity]|].
  split.
  - cbn. apply NoDup_remove_2. rewrite <- Eids. exact (wf_nodup s W).
  - unfold get_note, bind, ret, get, raise; cbn [templates].
    rewrite find_note_absent; [reflexivity|].
    apply delete_clears_id; [exact (wf_all_ids_nodup s W)|rewrite <- El; exact Hl].
Qed.

Lemma C7_delete_then_get_witness :
  exists s',
    delete_note (KInt (id (mk_note 1234567890 "Remove wisdom tooth"))) st_two = (Ok true, s')
    /\ (exists l1 l2, [mk_note 1234567890 "Remove wisdom tooth"]
                      = l1 ++ mk_note 1234567890 "Remove wisdom tooth" :: l2
                      /\ lookup "Surgery" (templates s') = Some (l1 ++ l2))
    /\ (exists a b, ids st_two = a ++ id (mk_note 1234567890 "Remove wisdom tooth") :: b
                    /\ ids s' = a ++ b)
    /\ ~ In (id (mk_note 1234567890 "Remove wisdom tooth")) (ids s')
    /\ get_note (KInt (id (mk_note 1234567890 "Remove wisdom tooth"))) s'
       = (Err (StorageError SE_NotFound), s').
Proof.
  apply (C7_delete_then_get st_two "Surgery" [mk_note 1234567890 "Remove wisdom tooth"]).
  - constructor; [reflexivity|vm_compute; apply Permutation_refl
                 |repeat constructor; simpl; lia|repeat constructor].
  - reflexivity.
  - simpl; left; reflexivity.
Defined.

(** ** C5 (edit into another category)

    In a well-formed state, [Repo.edit_type] of a stored note of category
    [c] into another registered category [c'] returns the new object, in
    [c'], with the same id and note text; [get_notes_of_type(c)] no longer
    holds the id, and [get_notes_of_type(c')] is the old [c'] list followed
    by the note. *)
Theorem C5_edit_type_moves s c l n c' :
  wf s -> lookup c (templates s) = Some l -> In n l ->
  In c' subclass_names -> c <> c' ->
  exists r s',
    edit_type (c, n) c' s = (Ok r, s')
    /\ fst r = c' /\ note_at s' r = Some n
    /\ (exists lc, get_notes_of_type c s' = (Ok lc, s') /\ ~ In (id n) (map id lc))
    /\ (exists lc', lookup c' (templates s) = Some lc'
                    /\ get_notes_of_type c' s' = (Ok (lc' ++ [n]), s')).
Proof.
  intros W Hl Hn Hc' Hne.
  destruct (delete_note_stored s c l n W Hl Hn) as (l1 & l2 & a & b & El & Eids & Hd).
  assert (Hin' : In c' (map fst (templates s))) by (rewrite (wf_names s W); exact Hc').
  destruct (lookup_in_keys _ _ Hin') as [lc' Hlc'].
  assert (Hlc'1 : lookup c' (assign c (l1 ++ l2) (templates s)) = Some lc')
    by (rewrite lookup_assign_other; [exact Hlc'|exact Hne]).
  assert (Hlen : str_len (id n) = ID_DIGIT_LENGTH).
  { apply (proj1 (Forall_forall _ _) (wf_len s W)). exact (wf_stored_in_ids s c l n W Hl Hn). }
  assert (Hfree : ~ In (id n) (a ++ b)).
  { apply NoDup_remove_2. rewrite <- Eids. exact (wf_nodup s W). }
  pose proof (instantiate_ok (mk_template c' (id n) (body n))
                (mk_repo (assign c (l1 ++ l2) (templates s)) (a ++ b)) lc'
                Hc' Hlc'1 Hlen Hfree) as Hi.
  cbn [t_type t_id t_note templates ids] in Hi. rewrite note_eta in Hi.
  do 2 eexists. split.
  { unfold edit_type. rewrite in_subclass_names_existsb by exact Hc'. cbn [negb].
    unfold bind at 1. cbn [to_dict t_id t_note fst snd]. rewrite Hd. exact Hi. }
  split; [reflexivity|]. split.
  { unfold note_at; cbn [fst snd templates].
    rewrite (lookup_assign_same _ _ _ _ Hlc'1).
    rewrite nth_error_app2, Nat.sub_diag by lia. reflexivity. }
  split.
  - exists (l1 ++ l2). unfold get_notes_of_type, bind, get, ret; cbn [templates].
    rewrite lookup_assign_other by (intros E; apply Hne; symmetry; exact E).
    rewrite (lookup_assign_same _ _ _ _ Hl). split; [reflexivity|].
    pose proof (nodup_lookup _ _ _ (wf_all_ids_nodup s W) Hl) as Hnd.
    rewrite El, map_app in Hnd. simpl in Hnd. apply NoDup_remove_2 in Hnd.
    rewrite map_app; exact Hnd.
  - exists lc'. split; [exact Hlc'|].
    unfold get_notes_of_type, bind, get, ret; cbn [templates].
    rewrite (lookup_assign_same _ _ _ _ Hlc'1). reflexivity.
Qed.

Lemma C5_edit_type_moves_witness :
  exists r s',
    edit_type ("Surgery"%string, mk_note 1234567890 "Remove wisdom tooth") "HygieneExam" st_two
      = (Ok r, s')
    /\ fst r = "HygieneExam"%string
    /\ note_at s' r = Some (mk_note 1234567890 "Remove wisdom tooth")
    /\ (exists lc, get_notes_of_type "Surgery" s' = (Ok lc, s')
                   /\ ~ In (id (mk_note 1234567890 "Remove wisdom tooth")) (map id lc))
    /\ (exists lc', lookup "HygieneExam" (templates st_two) = Some lc'
                    /\ get_notes_of_type "HygieneExam" s'
                       = (Ok (lc' ++ [mk_note 1234567890 "Remove wisdom tooth"]), s')).
Proof.
  apply (C5_edit_type_moves st_two "Surgery" [mk_note 1234567890 "Remove wisdom tooth"]).
  - constructor; [reflexivity|vm_compute; apply Permutation_refl
                 |repeat constructor; simpl; lia|repeat constructor].
  - reflexivity.
  - simpl; left; reflexivity.
  - simpl; tauto.
  - discriminate.
Defined.

(** ** C8 (same-category edit)

    In a well-formed state, [NoteKeeper.edit_note] with the id of a stored
    note of category [c], the same category [c] and a new text sets that
    object's text in place: the returned object is still in [c] with the
    same id, [Repo.ids] is unchanged, and every category list is the old one
    with only the note of that id rewritten. *)
Theorem C8_edit_same_category s c l n b :
  wf s -> lookup c (templates s) = Some l -> In n l ->
  exists r s',
    edit_note (mk_edited (KInt (id n)) c b) s = (Ok r, s')
    /\ fst r = c /\ note_at s' r = Some (mk_note (id n) b)
    /\ ids s' = ids s
    /\ forall name, lookup name (templates s')
                    = option_map (map (edit_body (id n) b)) (lookup name (templates s)).
Proof.
  intros W Hl Hn.
  destruct (find_note_stored _ c l n (wf_keys_nodup s W) (wf_all_ids_nodup s W) Hl Hn)
    as (i & Hf & Hi).
  destruct (nth_error_split l i Hi) as (l1 & l2 & El & Hlen).
  pose proof (nodup_lookup _ _ _ (wf_all_ids_nodup s W) Hl) as Hndl.
  rewrite El, map_app in Hndl; simpl in Hndl. apply NoDup_remove_2 in Hndl.
  rewrite in_app_iff in Hndl.
  exists (c, i), (mk_repo (assign c (update_nth i (mk_note (id n) b) l) (templates s)) (ids s)).
  split.
  { unfold edit_note. cbn [e_id e_type e_note]. unfold bind at 1, ret at 1.
    unfold bind at 1, get at 1.
    assert (Hk : existsb (String.eqb c) (map fst (templates s)) = true).
    { apply existsb_exists; exists c; split; [|apply String.eqb_refl].
      apply (in_map fst _ (c, l)); apply lookup_in; exact Hl. }
    rewrite Hk; cbn [negb]. unfold bind at 1. rewrite (get_note_found s _ _ Hf).
    cbn [fst]. rewrite String.eqb_refl. unfold bind. rewrite (set_body_at s c i l n b Hl Hi).
    reflexivity. }
  split; [reflexivity|]. split.
  { unfold note_at; cbn [fst snd templates]. rewrite (lookup_assign_same _ _ _ _ Hl).
    rewrite El, <- Hlen, update_nth_split, nth_error_app2, Nat.sub_diag by lia.
    reflexivity. }
  split; [reflexivity|].
  intros name; cbn [templates].
  destruct (String.eqb name c) eqn:E.
  - apply String.eqb_eq in E; subst name.
    rewrite (lookup_assign_same _ _ _ _ Hl), Hl. cbn [option_map]. f_equal.
    rewrite El, <- Hlen, update_nth_split, map_app. cbn [map].
    unfold edit_body at 2; rewrite Z.eqb_refl.
    rewrite !map_edit_body_absent by tauto. reflexivity.
  - rewrite lookup_assign_other by (intros E'; subst; rewrite String.eqb_refl in E; discriminate).
    destruct (lookup name (templates s)) as [l'|] eqn:E2; cbn [option_map]; [|reflexivity].
    f_equal; symmetry; apply map_edit_body_absent. intros Hin.
    pose proof (wf_all_ids_nodup s W) as Hnd.
    destruct (lookup_split c _ _ Hl) as (P & Q & Et & _ & _).
    pose proof (lookup_in _ _ _ E2) as Hp. rewrite Et in Hp, Hnd.
    rewrite all_ids_app, all_ids_cons in Hnd.
    assert (Hnl : In (id n) (map id l)) by (apply in_map; exact Hn).
    apply in_app_iff in Hp as [Hp|[Hp|Hp]].
    + apply (nodup_app_disjoint _ _ _ Hnd (in_pair_all_ids _ _ _ _ Hp Hin)).
      apply in_or_app; left; exact Hnl.
    + injection Hp as <- _. rewrite String.eqb_refl in E; discriminate.
    + apply NoDup_app_remove_l in Hnd.
      exact (nodup_app_disjoint _ _ _ Hnd Hnl (in_pair_all_ids _ _ _ _ Hp Hin)).
Qed.

Lemma C8_edit_same_category_witness :
  exists r s',
    edit_note (mk_edited (KInt (id (mk_note 1234567890 "Remove wisdom tooth"))) "Surgery" "x")
      st_two = (Ok r, s')
    /\ fst r = "Surgery"%string
    /\ note_at s' r = Some (mk_note (id (mk_note 1234567890 "Remove wisdom tooth")) "x")
    /\ ids s' = ids st_two
    /\ forall name, lookup name (templates s')
         = option_map (map (edit_body (id (mk_note 1234567890 "Remove wisdom tooth")) "x"))
                      (lookup name (templates st_two)).
Proof.
  apply (C8_edit_same_category st_two "Surgery" [mk_note 1234567890 "Remove wisdom tooth"]).
  - constructor; [reflexivity|vm_compute; apply Permutation_refl
                 |repeat constructor; simpl; lia|repeat constructor].
  - reflexivity.
  - simpl; left; reflexivity.
Defined.

(** ** C6 (key generation postcondition)

    Whenever [Repo.generate_id] returns, it leaves the repository unchanged
    and returns an int in [[10^(ID_DIGIT_LENGTH-1), 10^ID_DIGIT_LENGTH - 1]]
    with [ID_DIGIT_LENGTH] digits that is not in [Repo.ids]. *)
Theorem C6_generate_id_postcondition draws s v s' :
  generate_id draws s = (Ok v, s') ->
  s' = s /\
  exists z, v = PInt z
    /\ 10 ^ (ID_DIGIT_LENGTH - 1) <= z <= 10 ^ ID_DIGIT_LENGTH - 1
    /\ str_len z = ID_DIGIT_LENGTH
    /\ ~ In z (ids s).
Proof.
  unfold generate_id, bind, get.
  destruct (generate_id_loop (ids s) false false PFalse draws) as [w|] eqn:E;
    cbn; intros H; inversion H; subst; clear H.
  split; [reflexivity|].
  destruct (generate_id_loop_spec _ _ _ _ _ _ (fun H => H) E) as [[? _]|(z & -> & Hr & Hn)];
    [discriminate|].
  exists z; split; [reflexivity|split; [exact Hr|split; [|exact Hn]]].
  apply str_len_ten. unfold id_low, id_high, ID_DIGIT_LENGTH in Hr. exact Hr.
Qed.

Lemma C6_generate_id_postcondition_witness :
  generate_id [234567890; 5] st_two = (Ok (PInt 1000000005), st_two) /\
  (st_two = st_two /\
   exists z, PInt 1000000005 = PInt z
    /\ 10 ^ (ID_DIGIT_LENGTH - 1) <= z <= 10 ^ ID_DIGIT_LENGTH - 1
    /\ str_len z = ID_DIGIT_LENGTH
    /\ ~ In z (ids st_two)).
Proof.
  (* the first draw gives 1234567890, already in [ids st_two]: the loop retries *)
  assert (H : generate_id [234567890; 5] st_two = (Ok (PInt 1000000005), st_two))
    by (vm_compute; reflexivity).
  split; [exact H|].
  exact (C6_generate_id_postcondition [234567890; 5] st_two (PInt 1000000005) st_two H).
Defined.

(** ** C9 (unsupported save path)

    [_save_to_yaml] tests [file_path.split(".")[1]], the text between the
    first and second dot, not the extension: it raises the format
    [StorageError] for ["my.notes.yaml"] (extension [yaml]) and writes
    ["notes.yaml.txt"] (extension [txt]). *)
Theorem C9_save_checks_second_component :
  extension "my.notes.yaml" = "yaml"%string
  /\ fst (save [] "my.notes.yaml" repo_init) = Err (StorageError SE_Format)
  /\ extension "notes.yaml.txt" = "txt"%string
  /\ save [] "notes.yaml.txt" repo_init
     = (Ok ([("notes.yaml.txt"%string, CDump [])], true), repo_init).
Proof. repeat split; vm_compute; reflexivity. Qed.

(** ** C10 (record equality)

    The claim says [__eq__] is total on id-bearing dictionaries.  It is not:
    for [{'id': r}] with [r] a [_Template], [self.id == r] makes [int]
    return [NotImplemented], Python calls the reflected [r.__eq__(self.id)],
    and that raises [CoreError] (an int is neither a dict nor a
    [_Template]). *)
Lemma C10_template_eq_counterexample :
  template_eq (mk_note 1234567890 "a")
    (PyDict [("id"%string, PyRecord "Surgery" (mk_note 1234567890 "a"))]) = Err CoreError.
Proof. reflexivity. Qed.

(** The corrected claim: against a [_Template] [__eq__] compares ids only;
    against a dict whose ['id'] is an int it compares ids; it returns a bool
    exactly for [_Template]s and for dicts holding an ['id'] that is no
    [_Template]; every other comparison raises [CoreError]. *)
Theorem C10_template_eq_total self :
  (forall cls other, template_eq self (PyRecord cls other) = Ok (Z.eqb (id self) (id other)))
  /\ (forall d z, lookup "id" d = Some (PyInt z) ->
        template_eq self (PyDict d) = Ok (Z.eqb (id self) z))
  /\ (forall other, (exists b, template_eq self other = Ok b)
        <-> (exists cls n, other = PyRecord cls n)
            \/ (exists d v, other = PyDict d /\ lookup "id" d = Some v
                            /\ forall cls n, v <> PyRecord cls n))
  /\ (forall other, (forall b, template_eq self other <> Ok b) ->
        template_eq self other = Err CoreError).
Proof.
  split; [reflexivity|split; [|split]].
  - intros d z Hd. cbn [template_eq]. rewrite Hd. reflexivity.
  - intros other; split.
    + intros [b Hb]. destruct other as [| | | |d|cls n]; cbn [template_eq] in Hb;
        try discriminate.
      * right. destruct (lookup "id" d) as [v|] eqn:Hd; [|discriminate].
        exists d, v; split; [reflexivity|split; [exact Hd|]].
        intros cls n ->. discriminate Hb.
      * left; exists cls, n; reflexivity.
    + intros [(cls & n & ->)|(d & v & -> & Hd & Hv)].
      * eexists; reflexivity.
      * cbn [template_eq]. rewrite Hd. unfold int_eq.
        destruct v as [z|b| | |d'|cls n]; try (eexists; reflexivity).
        exfalso; exact (Hv cls n eq_refl).
  - intros other Hn. destruct other as [| | | |d|cls n]; cbn [template_eq] in *;
      try reflexivity.
    + destruct (lookup "id" d) as [v|]; [|reflexivity]. unfold int_eq in *.
      destruct v; try reflexivity; exfalso; eapply Hn; reflexivity.
    + exfalso; eapply Hn; reflexivity.
Qed.

Lemma C10_template_eq_total_witness :
  template_eq (mk_note 1234567890 "a") (PyRecord "Surgery" (mk_note 1234567890 "b")) = Ok true
  /\ template_eq (mk_note 1234567890 "a")
       (PyDict [("id"%string, PyInt 2234567890); ("note"%string, PyStr "a")]) = Ok false
  /\ template_eq (mk_note 1234567890 "a") (PyDict [("note"%string, PyStr "a")]) = Err CoreError.
Proof.
  destruct (C10_template_eq_total (mk_note 1234567890 "a")) as (H1 & H2 & _ & H4).
  split; [exact (H1 "Surgery"%string (mk_note 1234567890 "b"))|split].
  - exact (H2 [("id"%string, PyInt 2234567890); ("note"%string, PyStr "a")]
             2234567890 eq_refl).
  - apply H4; intros b; discriminate.
Defined.

Example str_len_ex1 : str_len 1234567890 = 10. Proof. reflexivity. Qed.
Example str_len_ex2 : str_len (-123456789) = 10. Proof. reflexivity. Qed.
Example str_len_ex3 : str_len 0 = 1. Proof. reflexivity. Qed.
Example str_len_ex4 : str_len 999999999 = 9. Proof. reflexivity. Qed.

(** * Further properties of the code *)

(** ** [str(int)] *)

Lemma digits_str_length f : forall n acc,
  Z.of_nat (String.length (digits_str f n acc)) = digits_aux f n + Z.of_nat (String.length acc).
Proof.
  induction f as [|f IH]; intros n acc; cbn [digits_str digits_aux].
  - cbn [String.length]. lia.
  - destruct (n <? 10); cbn [String.length]; [lia|]. rewrite IH; cbn [String.length]; lia.
Qed.

Lemma digits_aux_pos f n : 1 <= digits_aux f n.
Proof.
  revert n; induction f as [|f IH]; intros n; cbn [digits_aux]; [lia|].
  destruct (n <? 10); [lia|]. specialize (IH (n / 10)); lia.
Qed.

Lemma digit_val d : 0 <= d < 10 ->
  Z.of_nat (nat_of_ascii (digit d) - 48) = d /\ is_digit (digit d) = true.
Proof.
  intros Hd. unfold is_digit, digit.
  rewrite Ascii.nat_ascii_embedding by lia.
  split; [rewrite Nat.add_comm, Nat.add_sub; apply Z2Nat.id; lia|].
  apply andb_true_intro; split; apply Nat.leb_le; lia.
Qed.

Lemma parse_digits f : forall n acc a,
  0 <= n < 10 ^ (Z.of_nat f + 1) ->
  parse_int_aux a (digits_str f n acc) = parse_int_aux (a * 10 ^ digits_aux f n + n) acc.
Proof.
  induction f as [|f IH]; intros n acc a Hn; cbn [digits_str digits_aux].
  - cbn [parse_int_aux]. rewrite (proj1 (digit_val n ltac:(simpl in Hn; lia))).
    f_equal; lia.
  - destruct (n <? 10) eqn:E.
    + apply Z.ltb_lt in E. cbn [parse_int_aux].
      rewrite (proj1 (digit_val n ltac:(lia))). f_equal; lia.
    + apply Z.ltb_ge in E.
      assert (Hq : 0 <= n / 10 < 10 ^ (Z.of_nat f + 1)).
      { split; [apply Z.div_pos; lia|]. apply Z.div_lt_upper_bound; [lia|].
        rewrite <- Z.pow_succ_r by lia. rewrite Nat2Z.inj_succ in Hn.
        replace (Z.succ (Z.of_nat f + 1)) with (Z.succ (Z.of_nat f) + 1) by lia. exact (proj2 Hn). }
      rewrite IH by exact Hq. cbn [parse_int_aux].
      rewrite (proj1 (digit_val (n mod 10) ltac:(apply Z.mod_pos_bound; lia))).
      f_equal. pose proof (digits_aux_pos f (n / 10)) as Hp.
      rewrite Z.pow_add_r by lia. pose proof (Z.div_mod n 10 ltac:(lia)). nia.
Qed.

Lemma all_digits_digits f : forall n acc,
  0 <= n < 10 ^ (Z.of_nat f + 1) ->
  all_digits (digits_str f n acc) = all_digits acc.
Proof.
  induction f as [|f IH]; intros n acc Hn; cbn [digits_str].
  - cbn [all_digits]. rewrite (proj2 (digit_val n ltac:(simpl in Hn; lia))). reflexivity.
  - destruct (n <? 10) eqn:E.
    + apply Z.ltb_lt in E. cbn [all_digits].
      rewrite (proj2 (digit_val n ltac:(lia))). reflexivity.
    + apply Z.ltb_ge in E. rewrite IH.
      * cbn [all_digits]. rewrite (proj2 (digit_val (n mod 10) ltac:(apply Z.mod_pos_bound; lia))).
        reflexivity.
      * split; [apply Z.div_pos; lia|]. apply Z.div_lt_upper_bound; [lia|].
        rewrite <- Z.pow_succ_r by lia. rewrite Nat2Z.inj_succ in Hn.
        replace (Z.succ (Z.of_nat f + 1)) with (Z.succ (Z.of_nat f) + 1) by lia. exact (proj2 Hn).
Qed.

Lemma digits_str_cons f n acc : exists c s, digits_str f n acc = String c s.
Proof.
  revert n acc; induction f as [|f IH]; intros n acc; cbn [digits_str]; [eauto|].
  destruct (n <? 10); eauto.
Qed.

(** The fuel of [str_of_Z] covers every digit. *)
Lemma str_fuel_enough z :
  0 <= Z.abs z < 10 ^ (Z.of_nat (S (Z.to_nat (Z.log2 (Z.abs z)))) + 1).
Proof.
  split; [lia|]. rewrite Nat2Z.inj_succ, Z2Nat.id by apply Z.log2_nonneg.
  destruct (Z.eq_dec (Z.abs z) 0) as [E|E].
  - rewrite E. cbn. lia.
  - pose proof (Z.log2_spec (Z.abs z) ltac:(lia)) as [_ H].
    pose proof (Z.log2_nonneg (Z.abs z)).
    assert (2 ^ Z.succ (Z.log2 (Z.abs z)) <= 10 ^ Z.succ (Z.log2 (Z.abs z)))
      by (apply Z.pow_le_mono_l; lia).
    assert (10 ^ Z.succ (Z.log2 (Z.abs z)) <= 10 ^ (Z.succ (Z.log2 (Z.abs z)) + 1))
      by (apply pow10_mono; lia).
    lia.
Qed.

Lemma str_of_Z_nonneg z : 0 <= z ->
  isnumeric (str_of_Z z) = true /\ parse_int (str_of_Z z) = z.
Proof.
  intros Hz. unfold str_of_Z. replace (z <? 0) with false by (symmetry; apply Z.ltb_ge; lia).
  pose proof (str_fuel_enough z) as Hf.
  split.
  - destruct (digits_str_cons (S (Z.to_nat (Z.log2 (Z.abs z)))) (Z.abs z) EmptyString)
      as (c & s & E).
    unfold isnumeric. rewrite E, <- E. rewrite all_digits_digits by exact Hf. reflexivity.
  - unfold parse_int. rewrite parse_digits by exact Hf. cbn [parse_int_aux]. lia.
Qed.

Lemma str_of_Z_neg z : z < 0 -> isnumeric (str_of_Z z) = false.
Proof.
  intros Hz. unfold str_of_Z. replace (z <? 0) with true by (symmetry; apply Z.ltb_lt; lia).
  reflexivity.
Qed.

(** ** Helpers: the invariant under one category update *)

Lemma all_ids_assign c l l' tpl :
  lookup c tpl = Some l ->
  exists A B, all_ids tpl = A ++ map id l ++ B /\ all_ids (assign c l' tpl) = A ++ map id l' ++ B.
Proof.
  intros Hl. destruct (lookup_split c tpl l Hl) as (P & Q & E & _ & Ha).
  exists (all_ids P), (all_ids Q). rewrite Ha, E, !all_ids_app, !all_ids_cons. split; reflexivity.
Qed.

Lemma perm_append_middle (A ml B : list Z) z :
  Permutation ((A ++ ml ++ B) ++ [z]) (A ++ (ml ++ [z]) ++ B).
Proof.
  rewrite <- !app_assoc. do 2 apply Permutation_app_head.
  cbn. apply Permutation_sym, Permutation_cons_append.
Qed.

Lemma existsb_string_false k l : ~ In k l -> existsb (String.eqb k) l = false.
Proof.
  intros H. destruct (existsb (String.eqb k) l) eqn:E; [|reflexivity].
  apply existsb_exists in E as (y & Hy & Ey). apply String.eqb_eq in Ey; subst; tauto.
Qed.

Lemma wf_lookup s c : wf s -> In c subclass_names -> exists l, lookup c (templates s) = Some l.
Proof. intros W Hc. apply lookup_in_keys. rewrite (wf_names s W). exact Hc. Qed.

Lemma lookup_some_in_names s c l :
  wf s -> lookup c (templates s) = Some l -> In c subclass_names.
Proof.
  intros W Hl. rewrite <- (wf_names s W). apply (in_map fst _ (c, l)). apply lookup_in; exact Hl.
Qed.

Lemma note_at_inv s r n :
  note_at s r = Some n -> exists l, lookup (fst r) (templates s) = Some l /\ nth_error l (snd r) = Some n.
Proof.
  unfold note_at. destruct (lookup (fst r) (templates s)) as [l|]; [|discriminate].
  intros H; exists l; split; [reflexivity|exact H].
Qed.

(** [_instantiate_templates] on a registered class and a fresh ten-digit
    id keeps the invariant and stores the note where the reference says. *)
Lemma instantiate_wf s t :
  wf s -> In (t_type t) subclass_names -> str_len (t_id t) = ID_DIGIT_LENGTH ->
  ~ In (t_id t) (ids s) ->
  exists r s', _instantiate_templates t s = (Ok r, s') /\ fst r = t_type t
    /\ note_at s' r = Some (mk_note (t_id t) (t_note t)) /\ wf s'.
Proof.
  intros W Hc Hlen Hn. destruct (wf_lookup s _ W Hc) as [l Hl].
  rewrite (instantiate_ok t s l Hc Hl Hlen Hn). do 2 eexists; split; [reflexivity|].
  split; [reflexivity|]. split.
  - unfold note_at; cbn [fst snd templates]. rewrite (lookup_assign_same _ _ _ _ Hl).
    rewrite nth_error_app2, Nat.sub_diag by lia. reflexivity.
  - destruct (all_ids_assign _ _ (l ++ [mk_note (t_id t) (t_note t)]) _ Hl)
      as (A & B & E1 & E2).
    constructor; cbn [templates ids].
    + rewrite map_fst_assign; exact (wf_names s W).
    + rewrite E2, map_app. cbn [map id].
      eapply Permutation_trans; [|apply perm_append_middle].
      apply Permutation_app_tail. rewrite <- E1. exact (wf_perm s W).
    + apply (Permutation_NoDup (Permutation_cons_append (ids s) (t_id t))).
      constructor; [exact Hn|exact (wf_nodup s W)].
    + apply Forall_app; split; [exact (wf_len s W)|constructor; [exact Hlen|constructor]].
Qed.

(** [delete_note] of a stored note keeps the invariant. *)
Lemma delete_wf s c l n :
  wf s -> lookup c (templates s) = Some l -> In n l ->
  exists s', delete_note (KInt (id n)) s = (Ok true, s') /\ wf s'
    /\ ~ In (id n) (ids s') /\ ~ In (id n) (all_ids (templates s')).
Proof.
  intros W Hl Hn.
  destruct (delete_note_stored s c l n W Hl Hn) as (l1 & l2 & a & b & El & Eids & Hd).
  eexists; split; [exact Hd|].
  pose proof (delete_clears_id _ c l1 n l2 (wf_all_ids_nodup s W)) as Hcl.
  rewrite <- El in Hcl. specialize (Hcl Hl).
  destruct (all_ids_assign _ _ (l1 ++ l2) _ Hl) as (A & B & E1 & E2).
  pose proof (wf_nodup s W) as Hnd. rewrite Eids in Hnd.
  split; [|split; [cbn; exact (NoDup_remove_2 _ _ _ Hnd)|exact Hcl]].
  constructor; cbn [templates ids].
  - rewrite map_fst_assign; exact (wf_names s W).
  - rewrite E2. pose proof (wf_perm s W) as Hp. rewrite Eids, E1, El in Hp.
    rewrite !map_app in *. cbn [map] in Hp.
    replace (A ++ (map id l1 ++ id n :: map id l2) ++ B)
      with ((A ++ map id l1) ++ id n :: (map id l2 ++ B)) in Hp
      by (rewrite <- !app_assoc; reflexivity).
    apply Permutation_app_inv in Hp. rewrite <- !app_assoc in *. exact Hp.
  - exact (NoDup_remove_1 _ _ _ Hnd).
  - pose proof (wf_len s W) as Hf. rewrite Eids in Hf.
    apply Forall_app in Hf as [Ha Hb]. apply Forall_app; split; [exact Ha|].
    inversion Hb; assumption.
Qed.

(** [edit_type] of a stored note into any registered class. *)
Lemma edit_type_stored s c l n c' :
  wf s -> lookup c (templates s) = Some l -> In n l -> In c' subclass_names ->
  exists r s', edit_type (c, n) c' s = (Ok r, s') /\ fst r = c' /\ note_at s' r = Some n /\ wf s'.
Proof.
  intros W Hl Hn Hc'.
  destruct (delete_wf s c l n W Hl Hn) as (s1 & Hd & W1 & Hfree & _).
  assert (Hlen : str_len (id n) = ID_DIGIT_LENGTH).
  { apply (proj1 (Forall_forall _ _) (wf_len s W)). exact (wf_stored_in_ids s c l n W Hl Hn). }
  destruct (instantiate_wf s1 (mk_template c' (id n) (body n)) W1 Hc' Hlen Hfree)
    as (r & s2 & Hi & Hr & Hat & W2).
  cbn [t_type t_id t_note] in *. rewrite note_eta in Hat.
  exists r, s2. split; [|tauto].
  unfold edit_type. rewrite in_subclass_names_existsb by exact Hc'. cbn [negb].
  unfold bind at 1. cbn [to_dict t_id t_note fst snd]. rewrite Hd. exact Hi.
Qed.

(** [edit_type] pops the note and appends it to the target list: the
    reference it returns is the last position there. *)
Lemma edit_type_moves_last s c l n c' :
  wf s -> lookup c (templates s) = Some l -> In n l -> In c' subclass_names ->
  exists r s', edit_type (c, n) c' s = (Ok r, s') /\ wf s'
    /\ exists pre, lookup c' (templates s') = Some (pre ++ [n]) /\ r = (c', List.length pre).
Proof.
  intros W Hl Hn Hc'.
  destruct (edit_type_stored s c l n c' W Hl Hn Hc') as (r & s' & He & _ & _ & W').
  destruct (delete_wf s c l n W Hl Hn) as (s1 & Hd & W1 & Hfree & _).
  assert (Hlen : str_len (id n) = ID_DIGIT_LENGTH).
  { apply (proj1 (Forall_forall _ _) (wf_len s W)). exact (wf_stored_in_ids s c l n W Hl Hn). }
  destruct (wf_lookup s1 c' W1 Hc') as [lc Hlc].
  pose proof (instantiate_ok (mk_template c' (id n) (body n)) s1 lc Hc' Hlc Hlen Hfree) as Hi.
  cbn [t_type t_id t_note] in Hi. rewrite note_eta in Hi.
  assert (He2 : edit_type (c, n) c' s
                = (Ok (c', List.length lc),
                   mk_repo (assign c' (lc ++ [n]) (templates s1)) (ids s1 ++ [id n]))).
  { unfold edit_type. rewrite in_subclass_names_existsb by exact Hc'. cbn [negb].
    unfold bind at 1. cbn [to_dict t_id t_note fst snd]. rewrite Hd. exact Hi. }
  rewrite He2 in He. injection He as <- <-.
  do 2 eexists; split; [exact He2|split; [exact W'|]].
  exists lc. cbn [templates]. split; [exact (lookup_assign_same _ _ _ _ Hlc)|reflexivity].
Qed.

(** [obj.note = b] on a stored object keeps the invariant. *)
Lemma set_body_wf s r n b :
  wf s -> note_at s r = Some n ->
  exists s', set_body r b s = (Ok tt, s') /\ note_at s' r = Some (mk_note (id n) b) /\ wf s'.
Proof.
  intros W Hat. destruct r as [c i]. destruct (note_at_inv _ _ _ Hat) as (l & Hl & Hi).
  cbn [fst snd] in Hl, Hi. rewrite (set_body_at s c i l n b Hl Hi).
  eexists; split; [reflexivity|].
  destruct (nth_error_split l i Hi) as (l1 & l2 & El & Hlen).
  rewrite El, <- Hlen, update_nth_split.
  split.
  - unfold note_at; cbn [fst snd templates]. rewrite (lookup_assign_same _ _ _ _ Hl).
    rewrite nth_error_app2, Nat.sub_diag by lia. reflexivity.
  - destruct (all_ids_assign _ _ (l1 ++ mk_note (id n) b :: l2) _ Hl) as (A & B & E1 & E2).
    assert (Hm : map id (l1 ++ mk_note (id n) b :: l2) = map id l)
      by (rewrite El, !map_app; reflexivity).
    constructor; cbn [templates ids].
    + rewrite map_fst_assign; exact (wf_names s W).
    + rewrite E2, Hm, <- E1. exact (wf_perm s W).
    + exact (wf_nodup s W).
    + exact (wf_len s W).
Qed.

(** The state-preserving part of [Repo.generate_id]. *)
Lemma generate_id_spec draws s v s' :
  generate_id draws s = (Ok v, s') ->
  s' = s /\ exists z, v = PInt z /\ str_len z = ID_DIGIT_LENGTH /\ ~ In z (ids s).
Proof.
  unfold generate_id, bind, get.
  destruct (generate_id_loop (ids s) false false PFalse draws) as [w|] eqn:E;
    cbn; intros H; inversion H; subst; clear H.
  split; [reflexivity|].
  destruct (generate_id_loop_spec _ _ _ _ _ _ (fun H => H) E) as [[? _]|(z & -> & Hr & Hn)];
    [discriminate|].
  exists z; split; [reflexivity|split; [|exact Hn]].
  apply str_len_ten. unfold id_low, id_high, ID_DIGIT_LENGTH in Hr. exact Hr.
Qed.

Lemma load_list_app ts1 ts2 : forall s,
  load_list (ts1 ++ ts2) s = (load_list ts1 ;;; load_list ts2) s.
Proof.
  induction ts1 as [|t ts1 IH]; intros s; [reflexivity|].
  cbn [app load_list]. unfold bind.
  destruct (_instantiate_templates t s) as [[u|e] s1]; [|reflexivity].
  rewrite IH. reflexivity.
Qed.

Lemma str_app_nil_r (s : string) : (s ++ EmptyString)%string = s.
Proof. induction s as [|c s IH]; cbn; [reflexivity|rewrite IH; reflexivity]. Qed.

Lemma str_app_assoc (a b c : string) : ((a ++ b) ++ c)%string = (a ++ (b ++ c))%string.
Proof. induction a as [|x a IH]; cbn; [reflexivity|rewrite IH; reflexivity]. Qed.

Lemma split_dot_aux_nodot cur p :
  contains_dot p = false -> split_dot_aux cur p = [(cur ++ p)%string].
Proof.
  revert cur; induction p as [|c p IH]; intros cur H; cbn [split_dot_aux].
  - rewrite str_app_nil_r; reflexivity.
  - cbn [contains_dot] in H. apply orb_false_iff in H as [H1 H2]. rewrite H1.
    rewrite IH by exact H2. f_equal. rewrite str_app_assoc. reflexivity.
Qed.

Lemma pretty_notes_app name l1 l2 : forall num,
  pretty_notes name num (l1 ++ l2)
  = (pretty_notes name num l1 ++ pretty_notes name (num + Z.of_nat (List.length l1)) l2)%string.
Proof.
  induction l1 as [|n l1 IH]; intros num; cbn [app pretty_notes List.length].
  - rewrite Z.add_0_r. reflexivity.
  - rewrite IH, str_app_assoc. do 3 f_equal. lia.
Qed.

Lemma existsb_Z_true z l : In z l -> existsb (Z.eqb z) l = true.
Proof. intros H; apply existsb_exists; exists z; split; [exact H|apply Z.eqb_refl]. Qed.

Lemma str_len_neg_nine z : -999999999 <= z <= -100000000 -> str_len z = 10.
Proof.
  intros Hz. unfold str_len.
  replace (z <? 0) with true by (symmetry; apply Z.ltb_lt; lia).
  rewrite Z.abs_neq by lia.
  rewrite (digits_aux_exact _ (- z) 9); [reflexivity|lia| |cbn; lia].
  assert (Z.log2 (10 ^ 8) <= Z.log2 (- z)) by (apply Z.log2_le_mono; cbn; lia).
  assert (Z.log2 (10 ^ 8) = 26) by reflexivity.
  rewrite Nat2Z.inj_succ, Z2Nat.id by (apply Z.log2_nonneg). lia.
Qed.

Lemma lookup_note_classes k : In k subclass_names -> lookup k note_classes = Some k.
Proof. intros H. cbn in H. intuition (subst; reflexivity). Qed.

Lemma wf_st_two : wf st_two.
Proof.
  constructor; [reflexivity|vm_compute; apply Permutation_refl
               |repeat constructor; simpl; lia|repeat constructor].
Qed.

(** ** [Repo._add_id] *)

(** X3: the length check counts the characters of [str(id_)], so a
    negative nine-digit id passes it: [_instantiate_templates] stores the
    note and registers the id, and [Repo.get_note] given the printed id
    (["-..."], not numeric) then raises the bad-id [StorageError]. *)
Theorem instantiate_negative_nine_digit_id s ty z b :
  wf s -> In ty subclass_names -> -999999999 <= z <= -100000000 -> ~ In z (ids s) ->
  exists r s', _instantiate_templates (mk_template ty z b) s = (Ok r, s')
    /\ In z (ids s') /\ note_at s' r = Some (mk_note z b)
    /\ get_note (KStr (str_of_Z z)) s' = (Err (StorageError SE_BadId), s').
Proof.
  intros W Hc Hz Hn. destruct (wf_lookup s ty W Hc) as [l Hl].
  pose proof (str_len_neg_nine z Hz) as Hlen.
  rewrite (instantiate_ok (mk_template ty z b) s l Hc Hl Hlen Hn). cbn [t_type t_id t_note].
  do 2 eexists; split; [reflexivity|]. split; [cbn; apply in_or_app; right; left; reflexivity|].
  split.
  - unfold note_at; cbn [fst snd templates]. rewrite (lookup_assign_same _ _ _ _ Hl).
    rewrite nth_error_app2, Nat.sub_diag by lia. reflexivity.
  - unfold get_note, bind, raise. cbv beta iota. rewrite str_of_Z_neg by lia. reflexivity.
Qed.

Lemma instantiate_negative_nine_digit_id_witness :
  exists r s', _instantiate_templates (mk_template "Surgery" (-123456789) "x") st_two = (Ok r, s')
    /\ In (-123456789) (ids s') /\ note_at s' r = Some (mk_note (-123456789) "x")
    /\ get_note (KStr (str_of_Z (-123456789))) s' = (Err (StorageError SE_BadId), s').
Proof.
  apply instantiate_negative_nine_digit_id; [exact wf_st_two|simpl; tauto|lia|].
  simpl; intuition discriminate.
Defined.

(** ** [Repo._instantiate_templates] *)

(** X6: on a well-formed repository, instantiating a registered class with
    a fresh ten-digit id keeps the Key Index invariant, and the reference it
    returns points to the new note in that class. *)
Theorem instantiate_preserves_wf s t :
  wf s -> In (t_type t) subclass_names -> str_len (t_id t) = ID_DIGIT_LENGTH ->
  ~ In (t_id t) (ids s) ->
  exists r s', _instantiate_templates t s = (Ok r, s') /\ fst r = t_type t
    /\ note_at s' r = Some (mk_note (t_id t) (t_note t)) /\ wf s'.
Proof. exact (instantiate_wf s t). Qed.

Lemma instantiate_preserves_wf_witness :
  exists r s', _instantiate_templates (mk_template "PeriodicExam" 3234567890 "x") st_two
                = (Ok r, s') /\ fst r = "PeriodicExam"%string
    /\ note_at s' r = Some (mk_note 3234567890 "x") /\ wf s'.
Proof.
  apply (instantiate_preserves_wf st_two (mk_template "PeriodicExam" 3234567890 "x"));
    [exact wf_st_two|simpl; tauto|reflexivity|simpl; lia].
Defined.

(** ** [Repo.get_note] and [Repo.delete_note] *)

(** X7: a str id that is all digits is the int it spells: [get_note] and
    [delete_note] given [str(z)] behave as given [z]. *)
Theorem str_id_as_int s z :
  0 <= z ->
  get_note (KStr (str_of_Z z)) s = get_note (KInt z) s
  /\ delete_note (KStr (str_of_Z z)) s = delete_note (KInt z) s.
Proof.
  intros Hz. destruct (str_of_Z_nonneg z Hz) as [Hn Hp].
  split; [unfold get_note|unfold delete_note]; cbv beta iota; rewrite Hn, Hp; reflexivity.
Qed.

Lemma str_id_as_int_witness :
  get_note (KStr (str_of_Z 2234567890)) st_two = get_note (KInt 2234567890) st_two
  /\ delete_note (KStr (str_of_Z 2234567890)) st_two = delete_note (KInt 2234567890) st_two.
Proof. apply str_id_as_int. lia. Defined.

(** X9: an int id that no stored note carries raises the not-found
    [StorageError] in [delete_note] and [get_note], with nothing changed. *)
Theorem absent_id_not_found s z :
  ~ In z (all_ids (templates s)) ->
  delete_note (KInt z) s = (Err (StorageError SE_NotFound), s)
  /\ get_note (KInt z) s = (Err (StorageError SE_NotFound), s).
Proof.
  intros H. split; [unfold delete_note|unfold get_note]; unfold bind, get, raise, ret;
    cbv beta iota; rewrite find_note_absent by exact H; reflexivity.
Qed.

Lemma absent_id_not_found_witness :
  delete_note (KInt 3234567890) st_two = (Err (StorageError SE_NotFound), st_two)
  /\ get_note (KInt 3234567890) st_two = (Err (StorageError SE_NotFound), st_two).
Proof. apply absent_id_not_found. vm_compute. intuition discriminate. Defined.

(** X10: deleting a stored note keeps the Key Index invariant. *)
Theorem delete_preserves_wf s c l n :
  wf s -> lookup c (templates s) = Some l -> In n l ->
  exists s', delete_note (KInt (id n)) s = (Ok true, s') /\ wf s'
    /\ ~ In (id n) (all_ids (templates s')).
Proof.
  intros W Hl Hn. destruct (delete_wf s c l n W Hl Hn) as (s' & Hd & W' & _ & Hc).
  exists s'; tauto.
Qed.

Lemma delete_preserves_wf_witness :
  exists s', delete_note (KInt 2234567890) st_two = (Ok true, s') /\ wf s'
    /\ ~ In 2234567890 (all_ids (templates s')).
Proof.
  apply (delete_preserves_wf st_two "HygieneExam" [mk_note 2234567890 "Scaling"]
           (mk_note 2234567890 "Scaling")); [exact wf_st_two|reflexivity|simpl; tauto].
Defined.

(** X11: the printed id of a stored note (the ["ID: "] line of
    [_Template.__str__]) given back to [Repo.get_note] finds that note,
    when the id is nonnegative. *)
Theorem printed_id_finds_note s c l n :
  wf s -> lookup c (templates s) = Some l -> In n l -> 0 <= id n ->
  (exists pre post, template_str c n = (pre ++ str_of_Z (id n) ++ post)%string)
  /\ exists i, get_note (KStr (str_of_Z (id n))) s = (Ok (c, i), s)
               /\ note_at s (c, i) = Some n.
Proof.
  intros W Hl Hn Hz. split.
  - exists ("Type: " ++ c ++ nl ++ "ID: ")%string, (nl ++ nl ++ body n)%string.
    unfold template_str. rewrite !str_app_assoc. reflexivity.
  - destruct (find_note_stored _ c l n (wf_keys_nodup s W) (wf_all_ids_nodup s W) Hl Hn)
      as (i & Hf & Hi).
    exists i. split.
    + destruct (str_of_Z_nonneg (id n) Hz) as [Hnum Hp].
      unfold get_note, bind, get, ret. cbv beta iota. rewrite Hnum, Hp. cbv beta iota.
      rewrite Hf. reflexivity.
    + unfold note_at; cbn [fst snd]. rewrite Hl. exact Hi.
Qed.

Lemma printed_id_finds_note_witness :
  (exists pre post, template_str "Surgery" (mk_note 1234567890 "Remove wisdom tooth")
                    = (pre ++ str_of_Z 1234567890 ++ post)%string)
  /\ exists i, get_note (KStr (str_of_Z 1234567890)) st_two = (Ok ("Surgery"%string, i), st_two)
               /\ note_at st_two ("Surgery"%string, i)
                  = Some (mk_note 1234567890 "Remove wisdom tooth").
Proof.
  apply (printed_id_finds_note st_two "Surgery" [mk_note 1234567890 "Remove wisdom tooth"]
           (mk_note 1234567890 "Remove wisdom tooth")); [exact wf_st_two|reflexivity|simpl; tauto|].
  cbn; lia.
Defined.

(** ** [Repo.get_notes_of_type] and [NoteKeeper.get_notes_of_type] *)

(** X12: on a well-formed repository [get_notes_of_type] raises the
    bad-type [StorageError] exactly for the names that are no registered
    class, and never changes the repository. *)
Theorem get_notes_of_type_domain s t :
  wf s ->
  (fst (get_notes_of_type t s) = Err (StorageError SE_BadType) <-> ~ In t subclass_names)
  /\ snd (get_notes_of_type t s) = s.
Proof.
  intros W. unfold get_notes_of_type, bind, get, ret, raise. cbv beta iota.
  destruct (lookup t (templates s)) as [l|] eqn:E; cbn [fst snd].
  - split; [|reflexivity]. split; [discriminate|].
    intros H; exfalso; apply H; exact (lookup_some_in_names s t l W E).
  - split; [|reflexivity]. split; [|reflexivity]. intros _ Hin.
    destruct (wf_lookup s t W Hin) as [l Hl]. congruence.
Qed.

Lemma get_notes_of_type_domain_witness :
  (fst (get_notes_of_type "Cleaning" st_two) = Err (StorageError SE_BadType)
   <-> ~ In "Cleaning"%string subclass_names)
  /\ snd (get_notes_of_type "Cleaning" st_two) = st_two.
Proof. apply get_notes_of_type_domain. exact wf_st_two. Defined.

(** X13: with [str_=True], [NoteKeeper.get_notes_of_type] numbers the
    notes of the category from 1 in list order: the note at position [k]
    (0-based) appears in the block headed [Number: k+1], between the blocks
    of the notes before and after it. *)
Theorem notes_text_numbering s c l1 n l2 :
  lookup c (templates s) = Some (l1 ++ n :: l2) ->
  nk_get_notes_of_type c true s
  = (Ok (NText (pretty_notes c 0 l1
                ++ number_block c (Z.of_nat (List.length l1) + 1) n
                ++ pretty_notes c (Z.of_nat (List.length l1) + 1) l2)), s).
Proof.
  intros H. unfold nk_get_notes_of_type, get_notes_of_type, bind, get, ret.
  cbv beta iota. rewrite H. cbv beta iota.
  rewrite pretty_notes_app, Z.add_0_l. reflexivity.
Qed.

Lemma notes_text_numbering_witness :
  nk_get_notes_of_type "Surgery" true st_three
  = (Ok (NText (pretty_notes "Surgery" 0 [mk_note 1234567890 "Remove wisdom tooth"]
                ++ number_block "Surgery"
                     (Z.of_nat (List.length [mk_note 1234567890 "Remove wisdom tooth"]) + 1)
                     (mk_note 3234567890 "Extraction")
                ++ pretty_notes "Surgery"
                     (Z.of_nat (List.length [mk_note 1234567890 "Remove wisdom tooth"]) + 1)
                     [mk_note 4234567890 "Implant"])), st_three).
Proof.
  apply (notes_text_numbering st_three "Surgery" [mk_note 1234567890 "Remove wisdom tooth"]
           (mk_note 3234567890 "Extraction") [mk_note 4234567890 "Implant"]).
  reflexivity.
Defined.

(** ** [Repo.edit_type] *)

(** X15: on a well-formed repository, [edit_type] of a stored note into
    any registered class (its own class included) keeps the Key Index
    invariant and moves the note to the end of the target category's list:
    the returned object is that last position, holding the same note. *)
Theorem edit_type_preserves_wf s c l n c' :
  wf s -> lookup c (templates s) = Some l -> In n l -> In c' subclass_names ->
  exists r s', edit_type (c, n) c' s = (Ok r, s') /\ wf s'
    /\ exists pre, lookup c' (templates s') = Some (pre ++ [n]) /\ r = (c', List.length pre).
Proof. exact (edit_type_moves_last s c l n c'). Qed.

Lemma edit_type_preserves_wf_witness :
  fst (edit_type ("Surgery"%string, mk_note 1234567890 "Remove wisdom tooth") "Surgery" st_three)
  = Ok ("Surgery"%string, 2%nat)
  /\ exists r s', edit_type ("Surgery"%string, mk_note 1234567890 "Remove wisdom tooth")
                    "Surgery" st_three = (Ok r, s')
    /\ wf s'
    /\ exists pre, lookup "Surgery" (templates s')
                   = Some (pre ++ [mk_note 1234567890 "Remove wisdom tooth"])
                   /\ r = ("Surgery"%string, List.length pre).
Proof.
  split; [vm_compute; reflexivity|].
  apply (edit_type_preserves_wf st_three "Surgery"
           [mk_note 1234567890 "Remove wisdom tooth"; mk_note 3234567890 "Extraction";
            mk_note 4234567890 "Implant"]).
  - constructor; cbn [templates ids].
    + reflexivity.
    + vm_compute. apply Permutation_refl'. reflexivity.
    + repeat constructor; simpl; lia.
    + repeat constructor.
  - reflexivity.
  - simpl; tauto.
  - simpl; tauto.
Defined.

(** ** [NoteKeeper.edit_note] *)

(** X18: on a well-formed repository, [edit_note] of a stored note into
    another registered class returns an object of that class carrying the
    note's id and the new text, and keeps the Key Index invariant. *)
Theorem edit_note_cross_category s c l n c' b :
  wf s -> lookup c (templates s) = Some l -> In n l ->
  In c' subclass_names -> c <> c' ->
  exists r s', edit_note (mk_edited (KInt (id n)) c' b) s = (Ok r, s')
    /\ fst r = c' /\ note_at s' r = Some (mk_note (id n) b) /\ wf s'.
Proof.
  intros W Hl Hn Hc' Hne.
  destruct (find_note_stored _ c l n (wf_keys_nodup s W) (wf_all_ids_nodup s W) Hl Hn)
    as (i & Hf & Hi).
  assert (Hat : note_at s (c, i) = Some n) by (unfold note_at; cbn [fst snd]; rewrite Hl; exact Hi).
  destruct (edit_type_stored s c l n c' W Hl Hn Hc') as (r & s1 & He & Hr & Hat1 & W1).
  destruct (set_body_wf s1 r n b W1 Hat1) as (s2 & Hs & Hat2 & W2).
  exists r, s2. split; [|tauto].
  unfold edit_note. cbn [e_id e_type e_note]. unfold bind at 1, ret at 1.
  unfold bind at 1, get at 1.
  assert (Hk : existsb (String.eqb c') (map fst (templates s)) = true)
    by (rewrite (wf_names s W); apply in_subclass_names_existsb; exact Hc').
  rewrite Hk; cbn [negb]. unfold bind at 1. rewrite (get_note_found s _ _ Hf).
  cbn [fst]. replace (String.eqb c' c) with false
    by (symmetry; apply String.eqb_neq; intros E; apply Hne; symmetry; exact E).
  unfold bind at 1. rewrite (get_note_found s _ _ Hf).
  unfold bind at 1, get at 1. rewrite Hat.
  unfold bind at 1. cbn [fst]. rewrite He. unfold bind. rewrite Hs. reflexivity.
Qed.

Lemma edit_note_cross_category_witness :
  exists r s', edit_note (mk_edited (KInt (id (mk_note 2234567890 "Scaling"))) "PeriodicExam" "y")
                 st_two = (Ok r, s')
    /\ fst r = "PeriodicExam"%string
    /\ note_at s' r = Some (mk_note (id (mk_note 2234567890 "Scaling")) "y") /\ wf s'.
Proof.
  apply (edit_note_cross_category st_two "HygieneExam" [mk_note 2234567890 "Scaling"]);
    [exact wf_st_two|reflexivity|simpl; tauto|simpl; tauto|discriminate].
Defined.

(** ** [NoteKeeper.create_note], [create_from_attributes], [get_class] *)

(** X19: [create_note(blank=True)] leaves the repository as it was and
    returns a bare [_Template] with an empty note and a fresh ten-digit id;
    [get_class] on that object raises [KeyError], [_Template] being no key
    of [note_classes]. *)
Theorem create_note_blank nt id_ draws s c n s' :
  create_note nt id_ true draws s = (Ok (c, n), s') ->
  s' = s /\ c = "_Template"%string /\ body n = EmptyString
  /\ str_len (id n) = ID_DIGIT_LENGTH /\ ~ In (id n) (ids s)
  /\ get_class (c, n) = Err KeyError.
Proof.
  unfold create_note, bind, ret.
  destruct (generate_id draws s) as [[v|e] s1] eqn:G; intros H; [|discriminate].
  injection H as <- <- <-.
  apply generate_id_spec in G as [-> (z & -> & Hl & Hn)].
  cbn [pv_int id body]. repeat split; auto.
Qed.

Lemma create_note_blank_witness :
  exists c n s', create_note None None true [7] st_two = (Ok (c, n), s')
    /\ (s' = st_two /\ c = "_Template"%string /\ body n = EmptyString
        /\ str_len (id n) = ID_DIGIT_LENGTH /\ ~ In (id n) (ids st_two)
        /\ get_class (c, n) = Err KeyError).
Proof.
  destruct (create_note None None true [7] st_two) as [[[c n]|e] s'] eqn:E.
  - exists c, n, s'. split; [reflexivity|]. exact (create_note_blank None None [7] st_two c n s' E).
  - vm_compute in E. discriminate.
Defined.

(** X21: on a well-formed repository, [create_note] without an id stores
    the note under a generated id that no stored note carries, so the
    stored ids stay duplicate-free; the id is stored but not entered in
    [Repo.ids]. *)
Theorem create_note_generated_id s t b draws c n s' :
  wf s -> In t subclass_names ->
  create_note (Some (mk_new t b)) None false draws s = (Ok (c, n), s') ->
  c = t /\ ids s' = ids s /\ NoDup (all_ids (templates s'))
  /\ In (id n) (all_ids (templates s')) /\ ~ In (id n) (ids s').
Proof.
  intros W Hc H. destruct (wf_lookup s t W Hc) as [l Hl].
  unfold create_note in H. cbv beta iota in H. cbn [n_type n_note] in H.
  rewrite in_subclass_names_existsb in H by exact Hc. cbn [negb] in H.
  unfold bind, ret, get, put, raise in H.
  destruct (generate_id draws s) as [[v|e] s1] eqn:G; [|discriminate].
  apply generate_id_spec in G as [-> (z & -> & Hlen & Hz)].
  cbv beta iota in H. cbn [pv_int] in H. rewrite Hl in H.
  injection H as <- <- <-. cbn [templates ids id].
  destruct (all_ids_assign _ _ (l ++ [mk_note z b]) _ Hl) as (A & B & E1 & E2).
  assert (Hz' : ~ In z (all_ids (templates s)))
    by (intros Hi; apply Hz; exact (Permutation_in _ (Permutation_sym (wf_perm s W)) Hi)).
  rewrite E2, map_app. cbn [map id].
  split; [reflexivity|split; [reflexivity|split; [|split; [|exact Hz]]]].
  - apply (Permutation_NoDup (perm_append_middle A (map id l) B z)).
    apply (Permutation_NoDup (Permutation_cons_append _ z)). rewrite <- E1.
    constructor; [exact Hz'|exact (wf_all_ids_nodup s W)].
  - rewrite !in_app_iff; cbn; tauto.
Qed.

Lemma create_note_generated_id_witness :
  exists c n s', create_note (Some (mk_new "Surgery" "x")) None false [7] st_two = (Ok (c, n), s')
    /\ (c = "Surgery"%string /\ ids s' = ids st_two /\ NoDup (all_ids (templates s'))
        /\ In (id n) (all_ids (templates s')) /\ ~ In (id n) (ids s')).
Proof.
  destruct (create_note (Some (mk_new "Surgery" "x")) None false [7] st_two)
    as [[[c n]|e] s'] eqn:E.
  - exists c, n, s'. split; [reflexivity|].
    exact (create_note_generated_id st_two "Surgery" "x" [7] c n s' wf_st_two
             ltac:(simpl; tauto) E).
  - vm_compute in E. discriminate.
Defined.

(** ** [Repo.load] and [Repo.save] *)



Lemma load_dup_in_use f p s ts1 t ts2 :
  lookup p f = Some (CDump (ts1 ++ t :: ts2)) ->
  map fst (templates s) = subclass_names ->
  Forall (fun t => In (t_type t) subclass_names) ts1 ->
  NoDup (ids s ++ map t_id ts1) ->
  Forall (fun t => str_len (t_id t) = ID_DIGIT_LENGTH) ts1 ->
  In (t_type t) subclass_names -> str_len (t_id t) = ID_DIGIT_LENGTH ->
  In (t_id t) (ids s ++ map t_id ts1) ->
  fst (load f p s) = Err (StorageError SE_InUse).
Proof.
  intros Hf Hk Hc Hnd Hl Hct Hlt Hin.
  unfold load, _get_from_yaml, touch. rewrite Hf, Hf. cbn [full_load]. unfold _load_obj.
  unfold bind at 1. rewrite load_list_app. unfold bind at 1.
  rewrite (load_list_ok ts1 s Hk Hc Hnd Hl). cbn [load_list].
  unfold bind at 1, _instantiate_templates.
  rewrite in_subclass_names_existsb by exact Hct. cbn [negb].
  unfold bind at 1, _add_id, bind, get, raise. cbn [ids].
  rewrite Hlt, Z.eqb_refl, existsb_Z_true by exact Hin. reflexivity.
Qed.

(** X24: loading a file whose records repeat an id (among themselves or
    with an id already registered) raises the in-use [StorageError] at the
    repeated record. *)
Theorem load_duplicate_id f p s ts1 t ts2 :
  lookup p f = Some (CDump (ts1 ++ t :: ts2)) ->
  map fst (templates s) = subclass_names ->
  Forall (fun t => In (t_type t) subclass_names) ts1 ->
  NoDup (ids s ++ map t_id ts1) ->
  Forall (fun t => str_len (t_id t) = ID_DIGIT_LENGTH) ts1 ->
  In (t_type t) subclass_names -> str_len (t_id t) = ID_DIGIT_LENGTH ->
  In (t_id t) (ids s ++ map t_id ts1) ->
  fst (load f p s) = Err (StorageError SE_InUse).
Proof. exact (load_dup_in_use f p s ts1 t ts2). Qed.

Lemma load_duplicate_id_witness :
  fst (load [(DEFAULT_RECORDS_FILENAME,
              CDump [mk_template "Surgery" 1234567890 "a"; mk_template "HygieneExam" 1234567890 "b"])]
            DEFAULT_RECORDS_FILENAME repo_init)
  = Err (StorageError SE_InUse).
Proof.
  apply (load_duplicate_id _ _ _ [mk_template "Surgery" 1234567890 "a"]
           (mk_template "HygieneExam" 1234567890 "b") []);
    [reflexivity|reflexivity|repeat constructor; simpl; tauto|repeat constructor; simpl; tauto
    |repeat constructor|simpl; tauto|reflexivity|simpl; tauto].
Defined.

(** A list that is not duplicate-free after [acc] splits at its first
    element already seen. *)
Lemma first_dup (l acc : list Z) :
  NoDup acc -> ~ NoDup (acc ++ l) ->
  exists a x b, l = a ++ x :: b /\ NoDup (acc ++ a) /\ In x (acc ++ a).
Proof.
  revert acc. induction l as [|y l IH]; intros acc Hacc Hn.
  - rewrite app_nil_r in Hn. contradiction.
  - destruct (in_dec Z.eq_dec y acc) as [Hy|Hy].
    + exists [], y, l. rewrite app_nil_r. auto.
    + assert (Hacc' : NoDup (acc ++ [y])).
      { apply (Permutation_NoDup (Permutation_cons_append acc y)). constructor; assumption. }
      destruct (IH (acc ++ [y]) Hacc') as (a & x & b & -> & Hnd & Hin).
      { rewrite <- app_assoc. exact Hn. }
      exists (y :: a), x, b. rewrite <- app_assoc in Hnd, Hin. auto.
Qed.

Lemma save_ok f p st :
  save_path_ok p = true ->
  save f p st = (Ok (write_file f p (CDump (records_of (templates st))), true), st).
Proof.
  intros Hp.
  assert (Hs : _save_to_yaml f (records_of (templates st)) p
               = Ok (write_file f p (CDump (records_of (templates st))))).
  { unfold save_path_ok in Hp; unfold _save_to_yaml.
    destruct (nth_error (split_dot p) 1) as [e|]; [|discriminate].
    destruct (String.eqb e "yaml"), (String.eqb e "yml"); simpl in *;
      congruence. }
  unfold save, bind, get; cbn beta iota. rewrite Hs. reflexivity.
Qed.

(** X27: [Repo.save] writes the stored notes without checking their ids:
    a state holding two notes with the same id saves without error, and
    loading the saved file into a fresh [Repo()] raises the in-use
    [StorageError]. *)
Theorem save_then_load_duplicate f p st :
  save_path_ok p = true ->
  map fst (templates st) = subclass_names ->
  ~ NoDup (all_ids (templates st)) ->
  Forall (fun z => str_len z = ID_DIGIT_LENGTH) (all_ids (templates st)) ->
  exists f', save f p st = (Ok (f', true), st)
             /\ fst (load f' p repo_init) = Err (StorageError SE_InUse).
Proof.
  intros Hp Hk Hnd Hlen.
  set (recs := records_of (templates st)).
  exists (write_file f p (CDump recs)). split; [exact (save_ok f p st Hp)|].
  assert (Hr : ~ NoDup ([] ++ map t_id recs)) by (unfold recs; rewrite records_of_ids; exact Hnd).
  destruct (first_dup (map t_id recs) [] (NoDup_nil _) Hr) as (a & x & b & Hm & Hnda & Hina).
  apply map_eq_app in Hm as (ts1 & rest & Hrecs & Ha & Hrest).
  apply map_eq_cons in Hrest as (t & ts2 & -> & Ht & Hb).
  assert (Hty : Forall (fun t => In (t_type t) subclass_names) recs)
    by (rewrite <- Hk; apply records_of_types).
  assert (Hln : Forall (fun t => str_len (t_id t) = ID_DIGIT_LENGTH) recs).
  { apply (proj1 (Forall_map t_id (fun z => str_len z = ID_DIGIT_LENGTH) _)).
    unfold recs; rewrite records_of_ids. exact Hlen. }
  rewrite Hrecs in Hty, Hln.
  apply Forall_app in Hty as [Hty1 Hty2]. apply Forall_app in Hln as [Hln1 Hln2].
  inversion Hty2; subst. inversion Hln2; subst.
  apply (load_dup_in_use _ _ _ ts1 t ts2).
  all: first [ assumption
             | rewrite lookup_write_file, Hrecs; reflexivity
             | reflexivity
             | cbn [ids repo_init]; rewrite Ha, ?Ht; assumption ].
Qed.

Lemma save_then_load_duplicate_witness :
  exists f', save [] DEFAULT_RECORDS_FILENAME st_dup = (Ok (f', true), st_dup)
             /\ fst (load f' DEFAULT_RECORDS_FILENAME repo_init) = Err (StorageError SE_InUse).
Proof.
  apply save_then_load_duplicate; [reflexivity|reflexivity| |].
  - vm_compute. intros H. inversion H as [|? ? Hn _]. apply Hn. left. reflexivity.
  - repeat constructor.
Defined.

(** X26: a path without a dot has no [split(".")[1]]: [Repo.save] raises
    [IndexError] and writes nothing. *)
Theorem save_path_without_dot f p s :
  contains_dot p = false -> save f p s = (Err IndexError, s).
Proof.
  intros H. unfold save, bind, get, raise. cbv beta iota.
  unfold _save_to_yaml, split_dot. rewrite split_dot_aux_nodot by exact H. reflexivity.
Qed.

Lemma save_path_without_dot_witness : save [] "records" st_two = (Err IndexError, st_two).
Proof. apply save_path_without_dot. reflexivity. Defined.


(** ** [Repo.generate_id] and [Repo._instantiate_templates], once more *)

Lemma generate_id_loop_first_fresh used pre r post :
  Forall (fun q => In (randint id_low id_high q) used) pre ->
  ~ In (randint id_low id_high r) used ->
  forall l, generate_id_loop used false l PFalse (pre ++ r :: post)
            = Some (PInt (randint id_low id_high r)).
Proof.
  intros Hpre Hr. induction Hpre as [|q pre Hq Hpre IH]; intros l.
  - cbn [app generate_id_loop negb orb].
    rewrite str_len_randint, Z.eqb_refl, not_in_existsb by exact Hr.
    cbn [negb is_False orb]. apply generate_id_loop_done.
  - cbn [app generate_id_loop negb orb].
    rewrite str_len_randint, Z.eqb_refl.
    assert (E : existsb (Z.eqb (randint id_low id_high q)) used = true)
      by (apply existsb_exists; eexists; split; [exact Hq|apply Z.eqb_refl]).
    rewrite E. cbn [negb is_False orb]. apply IH.
Qed.

(** X28: [Repo.generate_id] returns the first draw that lands on an id not
    in [Repo.ids]: the draws before it, all in use, are retried; the draws
    after it are not consumed; the state is unchanged. *)
Theorem generate_id_first_fresh s pre r post :
  Forall (fun q => In (randint id_low id_high q) (ids s)) pre ->
  ~ In (randint id_low id_high r) (ids s) ->
  generate_id (pre ++ r :: post) s = (Ok (PInt (randint id_low id_high r)), s).
Proof.
  intros Hpre Hr. unfold generate_id, bind, get, ret.
  rewrite (generate_id_loop_first_fresh (ids s) pre r post Hpre Hr false). reflexivity.
Qed.

Lemma generate_id_first_fresh_witness :
  generate_id ([234567890; 1234567890] ++ 5 :: [7]) st_two
  = (Ok (PInt (randint id_low id_high 5)), st_two).
Proof.
  apply generate_id_first_fresh.
  - repeat constructor; vm_compute; tauto.
  - vm_compute. intuition discriminate.
Defined.

(** X29: on a well-formed repository, [_instantiate_templates] of a
    registered class with a fresh ten-digit id returns a reference that
    [Repo.get_note] of that id then returns. *)
Theorem instantiate_then_get s t :
  wf s -> In (t_type t) subclass_names -> str_len (t_id t) = ID_DIGIT_LENGTH ->
  ~ In (t_id t) (ids s) ->
  exists r s', _instantiate_templates t s = (Ok r, s')
    /\ note_at s' r = Some (mk_note (t_id t) (t_note t))
    /\ get_note (KInt (t_id t)) s' = (Ok r, s').
Proof.
  intros W Hc Hlen Hn.
  destruct (instantiate_wf s t W Hc Hlen Hn) as (r & s' & Hi & _ & Hat & W').
  exists r, s'. split; [exact Hi|split; [exact Hat|]].
  destruct r as [c i]. destruct (note_at_inv _ _ _ Hat) as (l & Hl & Hi').
  cbn [fst snd] in Hl, Hi'.
  destruct (find_note_stored _ c l (mk_note (t_id t) (t_note t))
              (wf_keys_nodup s' W') (wf_all_ids_nodup s' W') Hl (nth_error_In _ _ Hi'))
    as (j & Hf & Hj).
  cbn [id] in Hf. apply get_note_found. rewrite Hf. do 2 f_equal.
  assert (Hnd : NoDup l).
  { apply (NoDup_map_inv id). pose proof (wf_all_ids_nodup s' W') as Ha.
    destruct (lookup_split c (templates s') l Hl) as (P & Q & E & _ & _).
    rewrite E, all_ids_app, all_ids_cons in Ha.
    exact (NoDup_app_remove_r _ _ (NoDup_app_remove_l _ _ Ha)). }
  apply (proj1 (NoDup_nth_error l) Hnd).
  - apply nth_error_Some. rewrite Hj. discriminate.
  - rewrite Hj, Hi'. reflexivity.
Qed.

Lemma instantiate_then_get_witness :
  exists r s', _instantiate_templates (mk_template "Surgery" 3234567890 "Extraction") st_two
                = (Ok r, s')
    /\ note_at s' r = Some (mk_note 3234567890 "Extraction")
    /\ get_note (KInt 3234567890) s' = (Ok r, s').
Proof.
  apply (instantiate_then_get st_two (mk_template "Surgery" 3234567890 "Extraction")).
  - exact wf_st_two.
  - simpl; tauto.
  - reflexivity.
  - simpl; lia.
Defined.
